(** * pdf-watermark: placement geometry, box fitting and page composition

    A shallow embedding of [app/utils.py], [app/draw.py] and
    [app/handler.py].

    Conventions of the embedding.
    - Python [float] values (page sizes, coordinates, angles, scale
      factors) are real numbers, which leaves rounding out; where a
      property turns on rounding, the module [binary64] evaluates the same
      arithmetic on IEEE binary64 numbers.  Python [int] values are [Z]
      and enter real arithmetic through [IZR].
    - A Python [str] is its sequence of Unicode code points.
    - Code that may raise returns a [result]; [let*] sequences such code
      and propagates the first exception.
    - A reportlab canvas is the log of the operations issued on it, in
      order, together with its page size.
    - What the repository takes from elsewhere (reportlab's font metrics,
      PyPDF4's pages, the declarations of [app/options.py] and
      [app/objects.py], the helper [fit_image] that [app/draw.py] imports)
      is a [Variable] of the section that uses it. *)

From Stdlib Require Import PrimFloat.
From Stdlib Require FloatOps SpecFloat.
From Stdlib Require Import String Ascii ZArith NArith QArith List Bool Reals Lra Lia.
Import ListNotations.

Open Scope R_scope.

(** ** Python values *)

(** A Python string: the list of its code points. *)
Definition str : Type := list N.

Definition str_eq_dec (a b : str) : {a = b} + {a <> b} :=
  list_eq_dec N.eq_dec a b.

(** [a == b] on strings. *)
Definition str_eqb (a b : str) : bool :=
  if str_eq_dec a b then true else false.

(** Literals: the code points of an ASCII literal. *)
Fixpoint str_of_string (s : string) : str :=
  match s with
  | EmptyString => []
  | String c s' => N_of_ascii c :: str_of_string s'
  end.

(** The exceptions the three modules can raise themselves, and the two
    the interpreter raises for them. *)
Inductive exception : Type :=
| ValueError_invalid_alignment (value : str)
    (* ValueError(f"Invalid alignment value: '{value}'.") *)
| ValueError_no_watermark
    (* ValueError("No watermark to draw.") *)
| NotImplementedError_unknown_type
    (* NotImplementedError("Unknown watermark type.") *)
| ZeroDivisionError
| IndexError.

Inductive result (A : Type) : Type :=
| Ok (a : A)
| Raise (e : exception).
Arguments Ok {A} a.
Arguments Raise {A} e.

Definition bind {A B : Type} (r : result A) (k : A -> result B) : result B :=
  match r with
  | Ok a => k a
  | Raise e => Raise e
  end.

Notation "'let*' x ':=' r 'in' k" := (bind r (fun x => k))
  (at level 10, x pattern, r at level 100, k at level 200).

(** [a / b] on numbers: raises when the divisor is zero. *)
Definition truediv (a b : R) : result R :=
  if Req_dec_T b 0 then Raise ZeroDivisionError else Ok (a / b).

(** [range(lo, hi)]. *)
Definition range (lo hi : Z) : list Z :=
  map (fun k => (lo + Z.of_nat k)%Z) (seq 0 (Z.to_nat (hi - lo))).

(** [for x in xs: body], on a state threaded through the iterations; the
    loop stops at the first exception. *)
Fixpoint for_each {A S : Type} (xs : list A) (body : A -> S -> result S)
  (s : S) : result S :=
  match xs with
  | [] => Ok s
  | x :: xs' => let* s' := body x s in for_each xs' body s'
  end.

(** [xs[i]] for a non-negative index. *)
Definition getitem {A : Type} (xs : list A) (i : nat) : result A :=
  match nth_error xs i with
  | Some a => Ok a
  | None => Raise IndexError
  end.

(** ** numpy: the 2x2 arrays and 2x1 columns the code builds *)

Record ndarray22 : Type := array22 { a00 : R; a01 : R; a10 : R; a11 : R }.
Record ndarray21 : Type := array21 { c00 : R; c10 : R }.

Definition np_transpose (m : ndarray22) : ndarray22 :=
  array22 (a00 m) (a10 m) (a01 m) (a11 m).

(** [m @ v]. *)
Definition matmul (m : ndarray22) (v : ndarray21) : ndarray21 :=
  array21 (a00 m * c00 v + a01 m * c10 v) (a10 m * c00 v + a11 m * c10 v).

(** ** reportlab: images and canvases *)

(** An [ImageReader]: [getSize()] is its pixel size; [image_id] tells
    images apart. *)
Record ImageReader : Type := mkImage { image_id : N; getSize : Z * Z }.

Inductive CanvasOp : Type :=
| setFillColor (color : str) (alpha : R)
| setFont (font : str) (size : R)
| rotate (angle : R)
| drawCentredString (x y : R) (text : str)
| drawImage (image : ImageReader) (x y width height : R) (* mask="auto" *)
| save.

Record Canvas : Type :=
  mkCanvas { file_name : str; pagesize : R * R; code : list CanvasOp }.

(** [canvas.Canvas(file_name, pagesize=(width, height))]. *)
Definition new_Canvas (name : str) (width height : R) : Canvas :=
  mkCanvas name (width, height) [].

(** One more operation on the canvas. *)
Definition emit (c : Canvas) (op : CanvasOp) : Canvas :=
  mkCanvas (file_name c) (pagesize c) (code c ++ [op]).

Definition is_drawCentredString (op : CanvasOp) : bool :=
  match op with drawCentredString _ _ _ => true | _ => false end.

Definition is_drawImage (op : CanvasOp) : bool :=
  match op with drawImage _ _ _ _ _ => true | _ => false end.

(** How many strings, how many images a canvas has drawn. *)
Definition strings_drawn (c : Canvas) : nat :=
  length (filter is_drawCentredString (code c)).

Definition images_drawn (c : Canvas) : nat :=
  length (filter is_drawImage (code c)).

(** ** Files

    The PDF files on disk: at a path, the pages of the file there, if there
    is one.  [PyPDF4.PdfFileReader(path)] reads the whole file when it is
    opened; [pdf_writer.write] replaces the file at the output path. *)
Definition FileSystem (Page : Type) : Type := str -> option (list Page).

Definition write_file {Page : Type} (fs : FileSystem Page) (path : str)
  (pages : list Page) : FileSystem Page :=
  fun p => if str_eqb p path then Some pages else fs p.

(** What ends a run over several files: a missing input file, or an
    exception of the watermarking itself. *)
Inductive io_exception : Type :=
| FileNotFoundError (path : str)
| Raised (e : exception).

(** ** app/utils.py *)

Module utils.

(** The fields of [app.objects.DrawingOptions] that this module reads. *)
Record DrawingOptions : Type := mkDrawingOptions {
  text : option str;
  image : option ImageReader;
  text_font : str;
  text_size : R;
  text_color : str;
  opacity : R;
  angle : R;
  image_scale : R;
  horizontal_boxes : Z;
  vertical_boxes : Z;
  margin : bool
}.

Definition set_text_font (o : DrawingOptions) (f : str) : DrawingOptions :=
  mkDrawingOptions (text o) (image o) f (text_size o) (text_color o)
    (opacity o) (angle o) (image_scale o) (horizontal_boxes o)
    (vertical_boxes o) (margin o).

Definition draw_centered_image (canvas : Canvas) (x y width height : R)
  (image : ImageReader) : Canvas :=
  let bottom_left_x := x - width / 2 in
  let bottom_left_y := y - height / 2 in
  emit canvas (drawImage image bottom_left_x bottom_left_y width height).

Definition change_base (x y : R) (rotation_matrix : ndarray22) : R * R :=
  let new_coordinates := matmul (np_transpose rotation_matrix) (array21 x y) in
  (c00 new_coordinates, c10 new_coordinates).

Fixpoint is_chinese (text : str) : bool :=
  match text with
  | [] => false
  | ch :: rest =>
      if ((0x4e00 <=? ch) && (ch <=? 0x9fff))%N then true
      else is_chinese rest
  end.

(** Lines 102-109 of [create_watermark_pdf]: the two shrinking steps, on
    the image size and the box [(max_width, max_height)]. *)
Definition fit_box (image_width image_height max_width max_height : R)
  : result (R * R) :=
  let* (image_width, image_height) :=
    if Rgt_dec image_width max_width then
      let* change_ratio := truediv max_width image_width in
      Ok (max_width, image_height * change_ratio)
    else Ok (image_width, image_height) in
  if Rgt_dec image_height max_height then
    let* change_ratio := truediv max_height image_height in
    Ok (image_width * change_ratio, max_height)
  else Ok (image_width, image_height).

(** Lines 100-112 of [create_watermark_pdf]: the shrinking steps, then the
    scale factor.  [app/draw.py] calls this arithmetic [fit_image]. *)
Definition fit_image (image_width image_height max_width max_height
  image_scale : R) : result (R * R) :=
  let* (image_width, image_height) :=
    fit_box image_width image_height max_width max_height in
  let image_width := image_width * image_scale in
  let image_height := image_height * image_scale in
  Ok (image_width, image_height).

Section Environment.

(** What [get_all_zh_font()] answers on the machine: the installed fonts
    that cover Chinese. *)
Variable get_all_zh_font : list str.

(** Lines 57-69: the font a text with Chinese characters is drawn in.
    [pdfmetrics.registerFont] acts on reportlab's font registry, which
    nothing modelled here reads. *)
Definition chinese_font (drawing_options : DrawingOptions) : DrawingOptions :=
  match text drawing_options with
  | Some t =>
      if is_chinese t then
        let zh_fonts := get_all_zh_font in
        match zh_fonts with
        | first :: _ =>
            let zh_font := text_font drawing_options in
            let zh_font :=
              if negb (existsb (str_eqb zh_font) zh_fonts) then first
              else zh_font in
            set_text_font drawing_options zh_font
        | [] => drawing_options (* print("Please install Chinese font.") *)
        end
      else drawing_options
  | None => drawing_options
  end.

(** Lines 90-121: what the body of the loops draws at the point
    [(x_base, y_base)]. *)
Definition draw_at (drawing_options : DrawingOptions)
  (horizontal_box_spacing vertical_box_spacing : R)
  (rotation_matrix : ndarray22) (x_base y_base : R) (watermark : Canvas)
  : result Canvas :=
  let '(x_prime, y_prime) := change_base x_base y_base rotation_matrix in
  let watermark :=
    match text drawing_options with
    | Some t => emit watermark (drawCentredString x_prime y_prime t)
    | None => watermark
    end in
  match image drawing_options with
  | Some img =>
      let '(image_width, image_height) := getSize img in
      let* (image_width, image_height) :=
        fit_image (IZR image_width) (IZR image_height)
          horizontal_box_spacing vertical_box_spacing
          (image_scale drawing_options) in
      Ok (draw_centered_image watermark x_prime y_prime
            image_width image_height img)
  | None => Ok watermark
  end.

Definition create_watermark_pdf (file_name : str) (width height : R)
  (drawing_options : DrawingOptions) : result Canvas :=
  let watermark := new_Canvas file_name width height in
  let* horizontal_box_spacing :=
    truediv width (IZR (horizontal_boxes drawing_options)) in
  let* vertical_box_spacing :=
    truediv height (IZR (vertical_boxes drawing_options)) in
  let rotation_angle_rad := angle drawing_options * PI / 180 in
  let rotation_matrix :=
    array22 (cos rotation_angle_rad) (- sin rotation_angle_rad)
            (sin rotation_angle_rad) (cos rotation_angle_rad) in
  let drawing_options := chinese_font drawing_options in
  let watermark :=
    emit watermark
      (setFillColor (text_color drawing_options) (opacity drawing_options)) in
  let watermark :=
    emit watermark
      (setFont (text_font drawing_options) (text_size drawing_options)) in
  let watermark := emit watermark (rotate (angle drawing_options)) in
  let start_index := if margin drawing_options then 1%Z else 0%Z in
  let* watermark :=
    for_each (range start_index (horizontal_boxes drawing_options + 1))
      (fun x_index watermark =>
         for_each (range start_index (vertical_boxes drawing_options + 1))
           (fun y_index watermark =>
              let x_base := IZR x_index * horizontal_box_spacing in
              let y_base := IZR y_index * vertical_box_spacing in
              let x_base :=
                if margin drawing_options
                then x_base - horizontal_box_spacing / 2 else x_base in
              let y_base :=
                if margin drawing_options
                then y_base - vertical_box_spacing / 2 else y_base in
              draw_at drawing_options horizontal_box_spacing
                vertical_box_spacing rotation_matrix x_base y_base
                watermark)
           watermark)
      watermark in
  Ok (emit watermark save).

(** PyPDF4.  A page is opaque; [mediaBox] is its width and height,
    [mergePage page other] is [page] after [page.mergePage(other)], and
    [PdfFileReader_pages c] are the pages read back from the file canvas
    [c] was saved to. *)
Variable Page : Type.
Variable mediaBox : Page -> R * R.
Variable mergePage : Page -> Page -> Page.
Variable PdfFileReader_pages : Canvas -> list Page.

(** The name of the [NamedTemporaryFile]. *)
Variable temporary_file_name : str.

(** [input] is the page list of the input file; the result is the page
    list written to the output file. *)
Definition add_watermark_to_pdf (input : list Page)
  (drawing_options : DrawingOptions) : result (list Page) :=
  let pdf_to_transform := input in
  let* first_page := getitem pdf_to_transform 0 in
  let '(page_width, page_height) := mediaBox first_page in
  let* temporary_file :=
    create_watermark_pdf temporary_file_name page_width page_height
      drawing_options in
  let watermark_pdf := PdfFileReader_pages temporary_file in
  let pdf_writer := [] in
  let* pdf_writer :=
    for_each pdf_to_transform
      (fun page pdf_writer =>
         let* watermark_page := getitem watermark_pdf 0 in
         let page := mergePage page watermark_page in
         Ok (pdf_writer ++ [page]))
      pdf_writer in
  Ok pdf_writer.

(** [app.objects.UserInputs], as far as this module reads it. *)
Record UserInputs : Type := mkUserInputs {
  files_options : list (str * str);
  drawing_options : DrawingOptions
}.

(** The loop of [add_watermark_from_inputs] over the pairs of file names.
    [create_watermark_pdf] leaves its font choice in the shared
    [drawing_options], which the next iteration receives; an exception
    ends the loop, with the files written so far in place. *)
Fixpoint add_watermark_from_files (files : list (str * str))
  (drawing_options : DrawingOptions) (fs : FileSystem Page)
  : FileSystem Page * option io_exception :=
  match files with
  | [] => (fs, None)
  | (input_file, output_file) :: files' =>
      match fs input_file with
      | None => (fs, Some (FileNotFoundError input_file))
      | Some input =>
          match add_watermark_to_pdf input drawing_options with
          | Raise e => (fs, Some (Raised e))
          | Ok output =>
              let fs := write_file fs output_file output in
              let drawing_options := chinese_font drawing_options in
              add_watermark_from_files files' drawing_options fs
          end
      end
  end.

Definition add_watermark_from_inputs (inputs : UserInputs)
  (fs : FileSystem Page) : FileSystem Page * option io_exception :=
  add_watermark_from_files (files_options inputs) (drawing_options inputs) fs.

End Environment.

End utils.

(** ** The fitting arithmetic of app/utils.py on binary64 numbers

    Lines 100-112 of [create_watermark_pdf] as Python evaluates them: every
    quotient and product is rounded to the nearest binary64 number. *)

Module binary64.

Import PrimFloat.

(** [a / b] on floats: raises when the divisor is zero. *)
Definition truediv (a b : float) : result float :=
  if eqb b 0%float then Raise ZeroDivisionError else Ok (div a b).

(** Lines 102-109. *)
Definition fit_box (image_width image_height max_width max_height : float)
  : result (float * float) :=
  let* (image_width, image_height) :=
    if ltb max_width image_width then
      let* change_ratio := truediv max_width image_width in
      Ok (max_width, mul image_height change_ratio)
    else Ok (image_width, image_height) in
  if ltb max_height image_height then
    let* change_ratio := truediv max_height image_height in
    Ok (mul image_width change_ratio, max_height)
  else Ok (image_width, image_height).

(** Lines 100-112. *)
Definition fit_image (image_width image_height max_width max_height
  image_scale : float) : result (float * float) :=
  let* (image_width, image_height) :=
    fit_box image_width image_height max_width max_height in
  let image_width := mul image_width image_scale in
  let image_height := mul image_height image_scale in
  Ok (image_width, image_height).

(** The rational number a finite float stands for. *)
Definition exact (x : float) : Q :=
  match FloatOps.Prim2SF x with
  | SpecFloat.S754_finite sign mantissa exponent =>
      ((if sign then Z.neg mantissa else Z.pos mantissa) # 1)
      * Qpower 2 exponent
  | _ => 0
  end.

End binary64.

(** ** app/draw.py *)

Module draw.

(** [app.options.Alignments]; its members' values are a parameter below. *)
Inductive Alignments : Type := LEFT | RIGHT | CENTER.

(** The fields of the classes of [app.options] that this module reads. *)
Record DrawingOptions : Type := mkDrawingOptions {
  text : option str;
  image : option ImageReader;
  text_font : str;
  text_size : R;
  text_color : str;
  opacity : R;
  angle : R;
  image_scale : R
}.

Record GridOptions : Type := mkGridOptions {
  horizontal_boxes : Z;
  vertical_boxes : Z;
  margin : bool
}.

Record InsertOptions : Type := mkInsertOptions {
  x : R;
  y : R;
  horizontal_alignment : str
}.

(** [specific_options] of [draw_watermarks], told apart by [isinstance];
    [OtherOptions] is any object of neither class. *)
Inductive SpecificOptions : Type :=
| Insert (o : InsertOptions)
| Grid (o : GridOptions)
| OtherOptions.

Definition set_text_font (o : DrawingOptions) (f : str) : DrawingOptions :=
  mkDrawingOptions (text o) (image o) f (text_size o) (text_color o)
    (opacity o) (angle o) (image_scale o).

(** [s.find(sub)]: the lowest index at which [sub] occurs in [s], or -1. *)
Fixpoint startswith (s sub : str) : bool :=
  match sub, s with
  | [], _ => true
  | _ :: _, [] => false
  | a :: sub', b :: s' => (a =? b)%N && startswith s' sub'
  end.

Fixpoint find_from (s sub : str) (start : Z) : Z :=
  if startswith s sub then start
  else match s with
       | [] => (-1)%Z
       | _ :: s' => find_from s' sub (start + 1)
       end.

Definition find (s sub : str) : Z := find_from s sub 0.

Definition draw_one_watermark (watermark : Canvas) (x y : R)
  (rotation_matrix : ndarray22) (drawing_options : DrawingOptions)
  (image_width image_height : R) : Canvas :=
  let '(x_prime, y_prime) := utils.change_base x y rotation_matrix in
  let watermark :=
    match text drawing_options with
    | Some t => emit watermark (drawCentredString x_prime y_prime t)
    | None => watermark
    end in
  match image drawing_options with
  | Some img =>
      utils.draw_centered_image watermark x_prime y_prime
        image_width image_height img
  | None => watermark
  end.

Fixpoint is_chinese (text : str) : bool :=
  match text with
  | [] => false
  | ch :: rest =>
      if ((0x4e00 <=? ch) && (ch <=? 0x9fff))%N then true
      else is_chinese rest
  end.

Section Environment.

(** [Alignments.LEFT.value] and its siblings ([app/options.py]). *)
Variable Alignments_value : Alignments -> str.

(** reportlab's [Canvas.stringWidth(text, fontName, fontSize)]. *)
Variable stringWidth : str -> str -> R -> R.

(** [fit_image(image_width, image_height, max_image_width,
    max_image_height, image_scale)], imported from [app.utils]. *)
Variable fit_image : R -> R -> R -> R -> R -> result (R * R).

(** [platform.system()] and the answer of [get_all_zh_font()]. *)
Variable platform_system : str.
Variable get_all_zh_font : list str.

Definition draw_insert_watermark (watermark : Canvas)
  (drawing_options : DrawingOptions) (specific_options : InsertOptions)
  (width height : R) (rotation_matrix : ndarray22) : result Canvas :=
  let max_image_height :=
    Rmin (2 * y specific_options * height)
         (2 * (2 * (1 - y specific_options) * height)) in
  let '(image_width, image_height) := (0, 0) in
  let* (watermark_width, (image_width, image_height)) :=
    match text drawing_options with
    | Some t =>
        let watermark_width :=
          stringWidth t (text_font drawing_options)
            (text_size drawing_options) in
        Ok (watermark_width, (image_width, image_height))
    | None =>
        match image drawing_options with
        | Some img =>
            let* max_image_width :=
              if str_eqb (horizontal_alignment specific_options)
                   (Alignments_value LEFT)
              then Ok (x specific_options * width)
              else if str_eqb (horizontal_alignment specific_options)
                        (Alignments_value RIGHT)
              then Ok ((1 - x specific_options) * width)
              else if str_eqb (horizontal_alignment specific_options)
                        (Alignments_value CENTER)
              then Ok (Rmin (2 * (1 - x specific_options) * width)
                            (2 * x specific_options * width))
              else Raise (ValueError_invalid_alignment
                            (horizontal_alignment specific_options)) in
            let '(image_width, image_height) := getSize img in
            let* (image_width, image_height) :=
              fit_image (IZR image_width) (IZR image_height)
                max_image_width max_image_height
                (image_scale drawing_options) in
            let watermark_width := image_width in
            Ok (watermark_width, (image_width, image_height))
        | None => Raise ValueError_no_watermark
        end
    end in
  let* offset :=
    if str_eqb (horizontal_alignment specific_options)
         (Alignments_value LEFT)
    then Ok (- watermark_width / 2)
    else if str_eqb (horizontal_alignment specific_options)
              (Alignments_value RIGHT)
    then Ok (watermark_width / 2)
    else if str_eqb (horizontal_alignment specific_options)
              (Alignments_value CENTER)
    then Ok 0
    else Raise (ValueError_invalid_alignment
                  (horizontal_alignment specific_options)) in
  Ok (draw_one_watermark watermark
        (x specific_options * width + offset)
        (y specific_options * height)
        rotation_matrix drawing_options image_width image_height).

Definition draw_grid_watermark (watermark : Canvas)
  (drawing_options : DrawingOptions) (specific_options : GridOptions)
  (width height : R) (rotation_matrix : ndarray22) : result Canvas :=
  let '(image_width, image_height) := (0, 0) in
  let* horizontal_box_spacing :=
    truediv width (IZR (horizontal_boxes specific_options)) in
  let* vertical_box_spacing :=
    truediv height (IZR (vertical_boxes specific_options)) in
  let start_index := if margin specific_options then 1%Z else 0%Z in
  let* (image_width, image_height) :=
    match image drawing_options with
    | Some img =>
        let '(image_width, image_height) := getSize img in
        fit_image (IZR image_width) (IZR image_height)
          horizontal_box_spacing vertical_box_spacing
          (image_scale drawing_options)
    | None => Ok (image_width, image_height)
    end in
  for_each (range start_index (horizontal_boxes specific_options + 1))
    (fun x_index watermark =>
       for_each (range start_index (vertical_boxes specific_options + 1))
         (fun y_index watermark =>
            let x_base := IZR x_index * horizontal_box_spacing in
            let y_base := IZR y_index * vertical_box_spacing in
            let x_base :=
              if margin specific_options
              then x_base - horizontal_box_spacing / 2 else x_base in
            let y_base :=
              if margin specific_options
              then y_base - vertical_box_spacing / 2 else y_base in
            Ok (draw_one_watermark watermark x_base y_base rotation_matrix
                  drawing_options image_width image_height))
         watermark)
    watermark.

(** Lines 203-208: the loop over [zh_fonts] that picks the font. *)
Fixpoint pick_zh_font (zh_fonts rest : list str) (text_font : str) : str :=
  match rest with
  | [] => text_font
  | f :: rest' =>
      if (find f (str_of_string "Hei") >? 0)%Z then f
      else pick_zh_font zh_fonts rest' (hd text_font zh_fonts)
  end.

(** Lines 192-213: the font a text with Chinese characters is drawn in.
    [pdfmetrics.registerFont] acts on reportlab's font registry, which
    nothing modelled here reads. *)
Definition chinese_font (drawing_options : DrawingOptions) : DrawingOptions :=
  match text drawing_options with
  | Some t =>
      if is_chinese t then
        let zh_fonts :=
          map (fun ch => [ch]) (str_of_string "Microsoft YaHei") in
        let zh_fonts :=
          if negb (str_eqb (str_of_string "Windows") platform_system)
          then get_all_zh_font else zh_fonts in
        if (0 <? length zh_fonts)%nat then
          if negb (existsb (str_eqb (text_font drawing_options)) zh_fonts)
          then set_text_font drawing_options
                 (pick_zh_font zh_fonts zh_fonts (text_font drawing_options))
          else drawing_options
        else drawing_options (* print("Please install Chinese font.") *)
      else drawing_options
  | None => drawing_options
  end.

Definition draw_watermarks (file_name : str) (width height : R)
  (drawing_options : DrawingOptions) (specific_options : SpecificOptions)
  : result Canvas :=
  let watermark := new_Canvas file_name width height in
  let rotation_angle_rad := angle drawing_options * PI / 180 in
  let rotation_matrix :=
    array22 (cos rotation_angle_rad) (- sin rotation_angle_rad)
            (sin rotation_angle_rad) (cos rotation_angle_rad) in
  let drawing_options := chinese_font drawing_options in
  let watermark :=
    emit watermark
      (setFillColor (text_color drawing_options) (opacity drawing_options)) in
  let watermark :=
    emit watermark
      (setFont (text_font drawing_options) (text_size drawing_options)) in
  let watermark := emit watermark (rotate (angle drawing_options)) in
  let* watermark :=
    match specific_options with
    | Insert specific_options =>
        draw_insert_watermark watermark drawing_options specific_options
          width height rotation_matrix
    | Grid specific_options =>
        draw_grid_watermark watermark drawing_options specific_options
          width height rotation_matrix
    | OtherOptions => Raise NotImplementedError_unknown_type
    end in
  Ok (emit watermark save).

End Environment.

End draw.

(** ** app/handler.py *)

Module handler.

Section Environment.

Variable Alignments_value : draw.Alignments -> str.
Variable stringWidth : str -> str -> R -> R.
Variable fit_image : R -> R -> R -> R -> R -> result (R * R).
Variable platform_system : str.
Variable get_all_zh_font : list str.

(** PyPDF4, as in [utils]. *)
Variable Page : Type.
Variable mediaBox : Page -> R * R.
Variable mergePage : Page -> Page -> Page.
Variable PdfFileReader_pages : Canvas -> list Page.
Variable temporary_file_name : str.

Definition add_watermark_to_pdf (input : list Page)
  (drawing_options : draw.DrawingOptions)
  (specific_options : draw.SpecificOptions) : result (list Page) :=
  let pdf_to_transform := input in
  let* first_page := getitem pdf_to_transform 0 in
  let '(page_width, page_height) := mediaBox first_page in
  let* temporary_file :=
    draw.draw_watermarks Alignments_value stringWidth fit_image
      platform_system get_all_zh_font
      temporary_file_name page_width page_height
      drawing_options specific_options in
  let watermark_pdf := PdfFileReader_pages temporary_file in
  let pdf_writer := [] in
  let* pdf_writer :=
    for_each pdf_to_transform
      (fun page pdf_writer =>
         let* watermark_page := getitem watermark_pdf 0 in
         let page := mergePage page watermark_page in
         Ok (pdf_writer ++ [page]))
      pdf_writer in
  Ok pdf_writer.

(** The loop over the pairs of file names.  [draw_watermarks] leaves its
    font choice in the shared [drawing_options], which the next iteration
    receives; an exception ends the loop, with the files written so far in
    place. *)
Fixpoint add_watermark_from_options (files_options : list (str * str))
  (drawing_options : draw.DrawingOptions)
  (specific_options : draw.SpecificOptions) (fs : FileSystem Page)
  : FileSystem Page * option io_exception :=
  match files_options with
  | [] => (fs, None)
  | (input_file, output_file) :: files_options' =>
      match fs input_file with
      | None => (fs, Some (FileNotFoundError input_file))
      | Some input =>
          match add_watermark_to_pdf input drawing_options specific_options
          with
          | Raise e => (fs, Some (Raised e))
          | Ok output =>
              let fs := write_file fs output_file output in
              let drawing_options :=
                draw.chinese_font platform_system get_all_zh_font
                  drawing_options in
              add_watermark_from_options files_options' drawing_options
                specific_options fs
          end
      end
  end.

End Environment.

End handler.

(** ** The layouts in closed form

    The grid and the insert layout as the specification words them, to be
    compared with the loops and branches above. *)

(** The indices a grid iterates along one axis. *)
Definition grid_indices (margin : bool) (boxes : Z) : list Z :=
  range (if margin then 1 else 0)%Z (boxes + 1).

(** The coordinate of index [i] along an axis of length [extent] cut in
    [boxes] cells: [i] cells from the origin, less half a cell when the
    margin flag is set. *)
Definition cell_coordinate (margin : bool) (extent : R) (boxes : Z) (i : Z)
  : R :=
  if margin
  then IZR i * (extent / IZR boxes) - extent / (2 * IZR boxes)
  else IZR i * (extent / IZR boxes).

(** The points of a grid before rotation, column by column. *)
Definition grid_points (margin : bool) (width height : R) (hb vb : Z)
  : list (R * R) :=
  flat_map
    (fun i =>
       map (fun j => (cell_coordinate margin width hb i,
                      cell_coordinate margin height vb j))
           (grid_indices margin vb))
    (grid_indices margin hb).

(** How many cells a grid has. *)
Definition grid_cells (margin : bool) (hb vb : Z) : nat :=
  if margin then Z.to_nat (hb * vb) else Z.to_nat ((hb + 1) * (vb + 1)).

(** One drawing step per point, in order. *)
Definition at_points (points : list (R * R))
  (draw : R -> R -> Canvas -> result Canvas) (watermark : Canvas)
  : result Canvas :=
  for_each points (fun p watermark => draw (fst p) (snd p) watermark)
    watermark.

(** The horizontal offset of an insert of rendered width
    [watermark_width]. *)
Definition alignment_offset (a : draw.Alignments) (watermark_width : R) : R :=
  match a with
  | draw.LEFT => - (watermark_width / 2)
  | draw.RIGHT => watermark_width / 2
  | draw.CENTER => 0
  end.

(** The box an inserted image has to fit. *)
Definition insert_max_width (a : draw.Alignments) (x width : R) : R :=
  match a with
  | draw.LEFT => x * width
  | draw.RIGHT => (1 - x) * width
  | draw.CENTER => Rmin (2 * (1 - x) * width) (2 * x * width)
  end.

Definition insert_max_height (y height : R) : R :=
  Rmin (2 * y * height) (4 * (1 - y) * height).

(** What one instance adds to the strings and to the images drawn. *)
Definition strings_per_instance (text : option str) : nat :=
  match text with Some _ => 1 | None => 0 end.

Definition images_per_instance (image : option ImageReader) : nat :=
  match image with Some _ => 1 | None => 0 end.

(** [after] has drawn [n] instances more than [before]: [n] times the
    text, if there is one, and [n] times the image, if there is one. *)
Definition drew_instances (n : nat) (text : option str)
  (image : option ImageReader) (before after : Canvas) : Prop :=
  strings_drawn after
  = (strings_drawn before + n * strings_per_instance text)%nat /\
  images_drawn after
  = (images_drawn before + n * images_per_instance image)%nat.

(** The canvas of [create_watermark_pdf] when the loops start. *)
Definition utils_canvas_before_grid (zh : list str) (name : str)
  (width height : R) (o : utils.DrawingOptions) : Canvas :=
  let o' := utils.chinese_font zh o in
  emit
    (emit
       (emit (new_Canvas name width height)
          (setFillColor (utils.text_color o') (utils.opacity o')))
       (setFont (utils.text_font o') (utils.text_size o')))
    (rotate (utils.angle o')).

(** The options of [app/utils.py] as the two objects [app/draw.py] takes
    them in. *)
Definition drawing_options_of (o : utils.DrawingOptions)
  : draw.DrawingOptions :=
  draw.mkDrawingOptions (utils.text o) (utils.image o) (utils.text_font o)
    (utils.text_size o) (utils.text_color o) (utils.opacity o)
    (utils.angle o) (utils.image_scale o).

Definition grid_options_of (o : utils.DrawingOptions) : draw.GridOptions :=
  draw.mkGridOptions (utils.horizontal_boxes o) (utils.vertical_boxes o)
    (utils.margin o).

(** A text that brings the Chinese font step into play. *)
Definition chinese_text (text : option str) : bool :=
  match text with
  | Some t => draw.is_chinese t
  | None => false
  end.

(** The operations that draw. *)
Definition is_draw (op : CanvasOp) : bool :=
  is_drawCentredString op || is_drawImage op.

(** The output names of a run over several files. *)
Definition output_files (files : list (str * str)) : list str :=
  map snd files.

(** [after] is [before] with drawing operations added at the end and
    nothing else changed. *)
Definition extends_by_draws (before after : Canvas) : Prop :=
  file_name after = file_name before /\
  pagesize after = pagesize before /\
  exists ops : list CanvasOp,
    code after = code before ++ ops /\ forallb is_draw ops = true.

(** A point of the page, its border excluded. *)
Definition strictly_inside (width height : R) (p : R * R) : Prop :=
  0 < fst p < width /\ 0 < snd p < height.

(** ** A concrete environment

    One machine and one set of libraries, to run the definitions on. *)

Module example.

(** The values of [Alignments]. *)
Definition Alignments_value (a : draw.Alignments) : str :=
  match a with
  | draw.LEFT => str_of_string "left"
  | draw.RIGHT => str_of_string "right"
  | draw.CENTER => str_of_string "center"
  end.

(** A fixed-pitch font: every character is half the font size wide. *)
Definition stringWidth (text font : str) (size : R) : R :=
  INR (length text) * (size / 2).

Definition platform_system : str := str_of_string "Linux".
Definition get_all_zh_font : list str := [str_of_string "SimHei"].
Definition temporary_file_name : str := str_of_string "/tmp/tmpwatermark".

(** A page: its box and the canvas operations laid on it. *)
Record Page : Type := mkPage { box : R * R; layers : list CanvasOp }.

Definition mediaBox (p : Page) : R * R := box p.

Definition mergePage (page other : Page) : Page :=
  mkPage (box page) (layers page ++ layers other).

Definition PdfFileReader_pages (c : Canvas) : list Page :=
  [mkPage (pagesize c) (code c)].

Definition helvetica : str := str_of_string "Helvetica".
Definition black : str := str_of_string "black".

(** A text watermark and an image watermark. *)
Definition text_options : draw.DrawingOptions :=
  draw.mkDrawingOptions (Some (str_of_string "DRAFT")) None helvetica 12
    black (1 / 2) 45 1.

Definition logo : ImageReader := mkImage 1 (400, 200)%Z.

Definition image_options : draw.DrawingOptions :=
  draw.mkDrawingOptions None (Some logo) helvetica 12 black (1 / 2) 45 1.

Definition no_options : draw.DrawingOptions :=
  draw.mkDrawingOptions None None helvetica 12 black (1 / 2) 45 1.

Definition utils_text_options (hb vb : Z) (margin : bool)
  : utils.DrawingOptions :=
  utils.mkDrawingOptions (Some (str_of_string "DRAFT")) None helvetica 12
    black (1 / 2) 45 1 hb vb margin.

Definition identity_matrix : ndarray22 := array22 1 0 0 1.

(** A disk with one document, and a run that watermarks it. *)
Definition disk : FileSystem Page :=
  fun p => if str_eqb p (str_of_string "in.pdf")
           then Some [mkPage (595, 842) []; mkPage (595, 842) [rotate 90]]
           else None.

Definition one_file : list (str * str) :=
  [(str_of_string "in.pdf", str_of_string "out.pdf")].

Definition insert_left : draw.SpecificOptions :=
  draw.Insert (draw.mkInsertOptions (1 / 2) (1 / 4) (str_of_string "left")).

(** A two-page document. *)
Definition page1 : Page := mkPage (595, 842) [].
Definition page2 : Page := mkPage (595, 842) [rotate 90].

End example.

(** * Theorems *)

(** ** Python values: basic facts *)

Lemma truediv_ok (a b : R) : b <> 0 -> truediv a b = Ok (a / b).
Proof.
  intros Hb. unfold truediv. destruct (Req_dec_T b 0) as [E | _].
  - contradiction.
  - reflexivity.
Qed.

Lemma truediv_zero (a : R) : truediv a 0 = Raise ZeroDivisionError.
Proof.
  unfold truediv. destruct (Req_dec_T 0 0) as [_ | N].
  - reflexivity.
  - exfalso. apply N. reflexivity.
Qed.

Lemma str_eqb_eq (a b : str) : str_eqb a b = true <-> a = b.
Proof.
  unfold str_eqb. destruct (str_eq_dec a b); split; congruence.
Qed.

Lemma str_eqb_refl (a : str) : str_eqb a a = true.
Proof. apply str_eqb_eq. reflexivity. Qed.

Lemma str_eqb_neq (a b : str) : a <> b -> str_eqb a b = false.
Proof.
  intros N. unfold str_eqb. destruct (str_eq_dec a b); congruence.
Qed.

(** ** Box fitting *)

Section BoxFitting.

Variables image_width image_height max_width max_height : R.
Hypothesis image_width_pos : 0 < image_width.
Hypothesis image_height_pos : 0 < image_height.
Hypothesis max_width_pos : 0 < max_width.
Hypothesis max_height_pos : 0 < max_height.

(** The two shrinking steps multiply both sides of the image by one
    factor [k] in (0, 1], and the result is inside the box. *)
Lemma fit_box_factor :
  exists k : R,
    0 < k <= 1 /\
    utils.fit_box image_width image_height max_width max_height
    = Ok (k * image_width, k * image_height) /\
    k * image_width <= max_width /\
    k * image_height <= max_height.
Proof.
  unfold utils.fit_box.
  destruct (Rgt_dec image_width max_width) as [Hw | Hw].
  - rewrite truediv_ok by lra. cbn.
    set (r := max_width / image_width).
    assert (Hr : r * image_width = max_width) by (unfold r; field; lra).
    assert (Hr0 : 0 < r) by (unfold r; apply Rdiv_lt_0_compat; lra).
    assert (Hr1 : r < 1) by nra.
    destruct (Rgt_dec (image_height * r) max_height) as [Hh | Hh].
    + assert (Hpos : 0 < image_height * r) by nra.
      rewrite truediv_ok by lra. cbn.
      set (q := max_height / (image_height * r)).
      assert (Hq : q * (image_height * r) = max_height)
        by (unfold q; field; lra).
      assert (Hq0 : 0 < q) by (unfold q; apply Rdiv_lt_0_compat; lra).
      assert (Hq1 : q < 1) by nra.
      exists (r * q). repeat split; try nra.
      f_equal. f_equal; nra.
    + cbn. exists r. repeat split; try nra.
      f_equal. f_equal; nra.
  - cbn. destruct (Rgt_dec image_height max_height) as [Hh | Hh].
    + rewrite truediv_ok by lra. cbn.
      set (q := max_height / image_height).
      assert (Hq : q * image_height = max_height) by (unfold q; field; lra).
      assert (Hq0 : 0 < q) by (unfold q; apply Rdiv_lt_0_compat; lra).
      assert (Hq1 : q < 1) by nra.
      exists q. repeat split; try nra.
      f_equal. f_equal; nra.
    + cbn. exists 1. repeat split; try lra.
      f_equal. f_equal; ring.
Qed.

End BoxFitting.

(** Hence [fit_image] raises nothing on positive sizes. *)
Lemma fit_image_succeeds (iw ih mw mh s : R) :
  0 < iw -> 0 < ih -> 0 < mw -> 0 < mh ->
  exists d : R * R, utils.fit_image iw ih mw mh s = Ok d.
Proof.
  intros Hiw Hih Hmw Hmh.
  destruct (fit_box_factor iw ih mw mh Hiw Hih Hmw Hmh)
    as (k & _ & Hbox & _).
  unfold utils.fit_image. rewrite Hbox. eexists. reflexivity.
Qed.

(** C1: for every point [(x, y)] and every angle [theta] in degrees,
    [change_base] applied to the rotation matrix built from [theta] returns
    the transposed rotation applied to the point:
    [(x cos t + y sin t, - x sin t + y cos t)] with [t = theta * PI / 180]. *)
Theorem change_base_rotation (x y theta : R) :
  let t := theta * PI / 180 in
  utils.change_base x y (array22 (cos t) (- sin t) (sin t) (cos t))
  = (x * cos t + y * sin t, - x * sin t + y * cos t).
Proof.
  intros t. unfold utils.change_base. cbn. f_equal; ring.
Qed.




(** ** Loops *)

Lemma for_each_app {A S : Type} (xs ys : list A) (body : A -> S -> result S)
  (s : S) :
  for_each (xs ++ ys) body s
  = let* s' := for_each xs body s in for_each ys body s'.
Proof.
  revert s. induction xs as [| x xs IH]; intros s; cbn.
  - reflexivity.
  - destruct (body x s) as [s' | e]; cbn.
    + apply IH.
    + reflexivity.
Qed.

Lemma for_each_map {A B S : Type} (g : A -> B) (xs : list A)
  (body : B -> S -> result S) (s : S) :
  for_each (map g xs) body s = for_each xs (fun x => body (g x)) s.
Proof.
  revert s. induction xs as [| x xs IH]; intros s; cbn.
  - reflexivity.
  - destruct (body (g x) s) as [s' | e]; cbn.
    + apply IH.
    + reflexivity.
Qed.

Lemma for_each_flat_map {A B S : Type} (g : A -> list B) (xs : list A)
  (body : B -> S -> result S) (s : S) :
  for_each (flat_map g xs) body s
  = for_each xs (fun x s' => for_each (g x) body s') s.
Proof.
  revert s. induction xs as [| x xs IH]; intros s; cbn.
  - reflexivity.
  - rewrite for_each_app.
    destruct (for_each (g x) body s) as [s' | e]; cbn.
    + apply IH.
    + reflexivity.
Qed.

Lemma for_each_ext {A S : Type} (xs : list A) (f g : A -> S -> result S)
  (s : S) :
  (forall x s', f x s' = g x s') -> for_each xs f s = for_each xs g s.
Proof.
  intros E. revert s. induction xs as [| x xs IH]; intros s; cbn.
  - reflexivity.
  - rewrite E. destruct (g x s) as [s' | e]; cbn.
    + apply IH.
    + reflexivity.
Qed.

(** A loop whose every step succeeds and adds [k] to a measure of the
    state succeeds and adds [k] per iteration. *)
Lemma for_each_measure {A S : Type} (measure : S -> nat) (k : nat)
  (xs : list A) (body : A -> S -> result S) (s : S) :
  (forall x s0, exists s1, body x s0 = Ok s1 /\ measure s1 = (measure s0 + k)%nat) ->
  exists s', for_each xs body s = Ok s' /\
             measure s' = (measure s + length xs * k)%nat.
Proof.
  intros Hstep. revert s. induction xs as [| x xs IH]; intros s; cbn.
  - exists s. split; [reflexivity | lia].
  - destruct (Hstep x s) as (s1 & E1 & M1). rewrite E1. cbn.
    destruct (IH s1) as (s' & E' & M'). exists s'. split.
    + exact E'.
    + rewrite M', M1. lia.
Qed.

Lemma range_length (lo hi : Z) : length (range lo hi) = Z.to_nat (hi - lo).
Proof. unfold range. rewrite length_map, length_seq. reflexivity. Qed.

Lemma range_In (lo hi i : Z) : In i (range lo hi) <-> (lo <= i < hi)%Z.
Proof.
  unfold range. rewrite in_map_iff. split.
  - intros (k & E & Hk). apply in_seq in Hk. lia.
  - intros H. exists (Z.to_nat (i - lo)). split.
    + lia.
    + apply in_seq. lia.
Qed.

(** ** Grids *)

Lemma grid_points_length (margin : bool) (width height : R) (hb vb : Z) :
  (0 < hb)%Z -> (0 < vb)%Z ->
  length (grid_points margin width height hb vb) = grid_cells margin hb vb.
Proof.
  intros Hh Hv. unfold grid_points, grid_cells, grid_indices.
  set (rows := range (if margin then 1%Z else 0%Z) (vb + 1)).
  set (cols := range (if margin then 1%Z else 0%Z) (hb + 1)).
  assert (E : forall l : list Z,
             length (flat_map
               (fun i => map (fun j => (cell_coordinate margin width hb i,
                                        cell_coordinate margin height vb j))
                             rows) l)
             = (length l * length rows)%nat).
  { induction l as [| i l IH]; cbn.
    - reflexivity.
    - rewrite length_app, length_map, IH. reflexivity. }
  rewrite E. unfold rows, cols. rewrite !range_length.
  destruct margin; nia.
Qed.

(** The membership of a point in a grid, spelled out. *)
Lemma grid_points_In (margin : bool) (width height : R) (hb vb : Z)
  (p : R * R) :
  In p (grid_points margin width height hb vb) <->
  exists i j : Z,
    ((if margin then 1 else 0) <= i <= hb)%Z /\
    ((if margin then 1 else 0) <= j <= vb)%Z /\
    p = (cell_coordinate margin width hb i,
         cell_coordinate margin height vb j).
Proof.
  unfold grid_points, grid_indices. rewrite in_flat_map. split.
  - intros (i & Hi & Hp). apply in_map_iff in Hp.
    destruct Hp as (j & E & Hj). apply range_In in Hi, Hj.
    exists i, j. repeat split; try lia. symmetry. exact E.
  - intros (i & j & Hi & Hj & E). exists i. split.
    + apply range_In. lia.
    + apply in_map_iff. exists j. split.
      * symmetry. exact E.
      * apply range_In. lia.
Qed.

(** The nested loops of both grid functions visit the points of the grid:
    the inner computation of [x_base] and [y_base] is [cell_coordinate]. *)
Lemma grid_loops_points (margin : bool) (width height : R) (hb vb : Z)
  (draw : R -> R -> Canvas -> result Canvas) (watermark : Canvas) :
  (hb <> 0)%Z -> (vb <> 0)%Z ->
  for_each (range (if margin then 1 else 0)%Z (hb + 1))
    (fun x_index watermark =>
       for_each (range (if margin then 1 else 0)%Z (vb + 1))
         (fun y_index watermark =>
            let x_base := IZR x_index * (width / IZR hb) in
            let y_base := IZR y_index * (height / IZR vb) in
            let x_base :=
              if margin then x_base - width / IZR hb / 2 else x_base in
            let y_base :=
              if margin then y_base - height / IZR vb / 2 else y_base in
            draw x_base y_base watermark)
         watermark)
    watermark
  = at_points (grid_points margin width height hb vb) draw watermark.
Proof.
  intros Hh Hv.
  assert (Hh' : IZR hb <> 0) by (apply not_0_IZR; exact Hh).
  assert (Hv' : IZR vb <> 0) by (apply not_0_IZR; exact Hv).
  unfold at_points, grid_points, grid_indices.
  rewrite for_each_flat_map. apply for_each_ext. intros i w.
  rewrite for_each_map. apply for_each_ext. intros j w'. cbn.
  unfold cell_coordinate. destruct margin.
  - replace (IZR i * (width / IZR hb) - width / IZR hb / 2)
      with (IZR i * (width / IZR hb) - width / (2 * IZR hb))
      by (field; exact Hh').
    replace (IZR j * (height / IZR vb) - height / IZR vb / 2)
      with (IZR j * (height / IZR vb) - height / (2 * IZR vb))
      by (field; exact Hv').
    reflexivity.
  - reflexivity.
Qed.

(** ** Counting what a canvas has drawn *)

Lemma strings_drawn_emit (c : Canvas) (op : CanvasOp) :
  strings_drawn (emit c op)
  = (strings_drawn c + if is_drawCentredString op then 1 else 0)%nat.
Proof.
  unfold strings_drawn, emit. cbn. rewrite filter_app, length_app. cbn.
  destruct (is_drawCentredString op); reflexivity.
Qed.

Lemma images_drawn_emit (c : Canvas) (op : CanvasOp) :
  images_drawn (emit c op)
  = (images_drawn c + if is_drawImage op then 1 else 0)%nat.
Proof.
  unfold images_drawn, emit. cbn. rewrite filter_app, length_app. cbn.
  destruct (is_drawImage op); reflexivity.
Qed.

Lemma drew_instances_emit (n : nat) (text : option str)
  (image : option ImageReader) (before after : Canvas) (op : CanvasOp) :
  is_drawCentredString op = false -> is_drawImage op = false ->
  drew_instances n text image before after ->
  drew_instances n text image before (emit after op).
Proof.
  intros Hs Hi [Ea Eb]. unfold drew_instances.
  rewrite strings_drawn_emit, images_drawn_emit, Hs, Hi. lia.
Qed.

Lemma draw_one_watermark_counts (w : Canvas) (px py : R) (rot : ndarray22)
  (o : draw.DrawingOptions) (iw ih : R) :
  strings_drawn (draw.draw_one_watermark w px py rot o iw ih)
  = (strings_drawn w + strings_per_instance (draw.text o))%nat /\
  images_drawn (draw.draw_one_watermark w px py rot o iw ih)
  = (images_drawn w + images_per_instance (draw.image o))%nat.
Proof.
  unfold draw.draw_one_watermark, utils.draw_centered_image.
  destruct (utils.change_base px py rot) as [x' y'].
  destruct (draw.text o), (draw.image o); cbv beta iota zeta;
    rewrite ?strings_drawn_emit, ?images_drawn_emit; cbn; lia.
Qed.

Lemma draw_at_counts (o : utils.DrawingOptions) (hbs vbs : R)
  (rot : ndarray22) (px py : R) (w : Canvas) :
  (forall img, utils.image o = Some img ->
     exists d, utils.fit_image (IZR (fst (getSize img)))
                 (IZR (snd (getSize img))) hbs vbs (utils.image_scale o)
               = Ok d) ->
  exists w', utils.draw_at o hbs vbs rot px py w = Ok w' /\
    strings_drawn w'
    = (strings_drawn w + strings_per_instance (utils.text o))%nat /\
    images_drawn w'
    = (images_drawn w + images_per_instance (utils.image o))%nat.
Proof.
  intros Hfit. unfold utils.draw_at, utils.draw_centered_image.
  destruct (utils.change_base px py rot) as [x' y'].
  destruct (utils.image o) as [img |].
  - destruct (Hfit img eq_refl) as ([fw fh] & E).
    destruct (getSize img) as [iw ih]. cbn in E. rewrite E.
    cbv beta iota zeta delta [bind].
    eexists. split; [reflexivity |].
    destruct (utils.text o); cbv beta iota zeta;
      rewrite ?strings_drawn_emit, ?images_drawn_emit; cbn; lia.
  - eexists. split; [reflexivity |].
    destruct (utils.text o); cbv beta iota zeta;
      rewrite ?strings_drawn_emit, ?images_drawn_emit; cbn; lia.
Qed.

(** A drawing step that always succeeds and draws one instance, run at
    each of [points], draws as many instances as there are points. *)
Lemma at_points_counts (points : list (R * R))
  (draw : R -> R -> Canvas -> result Canvas) (text : option str)
  (image : option ImageReader) (w : Canvas) :
  (forall px py w0, exists w1, draw px py w0 = Ok w1 /\
     drew_instances 1 text image w0 w1) ->
  exists w', at_points points draw w = Ok w' /\
    drew_instances (length points) text image w w'.
Proof.
  intros Hstep. unfold at_points, drew_instances.
  destruct (for_each_measure strings_drawn (strings_per_instance text)
              points (fun p => draw (fst p) (snd p)) w) as (w1 & E1 & M1).
  { intros p w0. destruct (Hstep (fst p) (snd p) w0) as (w1 & E & [Ms _]).
    exists w1. split; [exact E | lia]. }
  destruct (for_each_measure images_drawn (images_per_instance image)
              points (fun p => draw (fst p) (snd p)) w) as (w2 & E2 & M2).
  { intros p w0. destruct (Hstep (fst p) (snd p) w0) as (w2 & E & [_ Mi]).
    exists w2. split; [exact E | lia]. }
  exists w1. split; [exact E1 |]. split; [exact M1 |].
  rewrite E1 in E2. injection E2 as <-. exact M2.
Qed.

(** [draw_grid_watermark] in closed form: the image is fitted to one cell,
    then one instance is drawn at each point of the grid. *)
Lemma draw_grid_watermark_points
  (fit_image : R -> R -> R -> R -> R -> result (R * R)) (w : Canvas)
  (o : draw.DrawingOptions) (g : draw.GridOptions) (width height : R)
  (rot : ndarray22) :
  (draw.horizontal_boxes g <> 0)%Z -> (draw.vertical_boxes g <> 0)%Z ->
  draw.draw_grid_watermark fit_image w o g width height rot
  = let* (image_width, image_height) :=
      match draw.image o with
      | Some img =>
          fit_image (IZR (fst (getSize img))) (IZR (snd (getSize img)))
            (width / IZR (draw.horizontal_boxes g))
            (height / IZR (draw.vertical_boxes g)) (draw.image_scale o)
      | None => Ok (0, 0)
      end in
    at_points
      (grid_points (draw.margin g) width height (draw.horizontal_boxes g)
         (draw.vertical_boxes g))
      (fun x_base y_base watermark =>
         Ok (draw.draw_one_watermark watermark x_base y_base rot o
               image_width image_height))
      w.
Proof.
  intros Hh Hv. unfold draw.draw_grid_watermark.
  rewrite !truediv_ok by (apply not_0_IZR; assumption). cbn.
  assert (E : match draw.image o with
              | Some img =>
                  let '(image_width, image_height) := getSize img in
                  fit_image (IZR image_width) (IZR image_height)
                    (width / IZR (draw.horizontal_boxes g))
                    (height / IZR (draw.vertical_boxes g))
                    (draw.image_scale o)
              | None => Ok (0, 0)
              end
              = match draw.image o with
                | Some img =>
                    fit_image (IZR (fst (getSize img)))
                      (IZR (snd (getSize img)))
                      (width / IZR (draw.horizontal_boxes g))
                      (height / IZR (draw.vertical_boxes g))
                      (draw.image_scale o)
                | None => Ok (0, 0)
                end).
  { destruct (draw.image o) as [img |]; [| reflexivity].
    destruct (getSize img); reflexivity. }
  rewrite E. clear E.
  match goal with |- bind ?r _ = _ => destruct r as [[iw ih] | e] end; cbn.
  - exact (grid_loops_points (draw.margin g) width height
             (draw.horizontal_boxes g) (draw.vertical_boxes g)
             (fun x_base y_base watermark =>
                Ok (draw.draw_one_watermark watermark x_base y_base rot o
                      iw ih))
             w Hh Hv).
  - reflexivity.
Qed.

(** The Chinese font step only ever changes the font. *)
Lemma utils_chinese_font_fields (zh : list str) (o : utils.DrawingOptions) :
  utils.text (utils.chinese_font zh o) = utils.text o /\
  utils.image (utils.chinese_font zh o) = utils.image o /\
  utils.image_scale (utils.chinese_font zh o) = utils.image_scale o /\
  utils.margin (utils.chinese_font zh o) = utils.margin o /\
  utils.horizontal_boxes (utils.chinese_font zh o) = utils.horizontal_boxes o /\
  utils.vertical_boxes (utils.chinese_font zh o) = utils.vertical_boxes o /\
  utils.angle (utils.chinese_font zh o) = utils.angle o.
Proof.
  unfold utils.chinese_font.
  destruct (utils.text o) as [t |] eqn:Et.
  - destruct (utils.is_chinese t).
    + destruct zh as [| first rest].
      * rewrite Et. repeat split.
      * cbn. rewrite Et. repeat split.
    + rewrite Et. repeat split.
  - rewrite Et. repeat split.
Qed.

(** [create_watermark_pdf] in closed form: the canvas is set up, the loop
    body runs at each point of the grid, and the canvas is saved. *)
Lemma create_watermark_pdf_points (zh : list str) (name : str)
  (width height : R) (o : utils.DrawingOptions) :
  (utils.horizontal_boxes o <> 0)%Z -> (utils.vertical_boxes o <> 0)%Z ->
  utils.create_watermark_pdf zh name width height o
  = let t := utils.angle o * PI / 180 in
    let* watermark :=
      at_points
        (grid_points (utils.margin o) width height
           (utils.horizontal_boxes o) (utils.vertical_boxes o))
        (utils.draw_at (utils.chinese_font zh o)
           (width / IZR (utils.horizontal_boxes o))
           (height / IZR (utils.vertical_boxes o))
           (array22 (cos t) (- sin t) (sin t) (cos t)))
        (utils_canvas_before_grid zh name width height o) in
    Ok (emit watermark save).
Proof.
  intros Hh Hv. unfold utils.create_watermark_pdf.
  rewrite !truediv_ok by (apply not_0_IZR; assumption).
  cbv beta iota zeta delta [bind].
  destruct (utils_chinese_font_fields zh o)
    as (_ & _ & _ & Em & Eh & Ev & _).
  rewrite Em, Eh, Ev.
  pose proof (grid_loops_points (utils.margin o) width height
             (utils.horizontal_boxes o) (utils.vertical_boxes o)
             (utils.draw_at (utils.chinese_font zh o)
                (width / IZR (utils.horizontal_boxes o))
                (height / IZR (utils.vertical_boxes o))
                (array22 (cos (utils.angle o * PI / 180))
                   (- sin (utils.angle o * PI / 180))
                   (sin (utils.angle o * PI / 180))
                   (cos (utils.angle o * PI / 180))))
             (utils_canvas_before_grid zh name width height o) Hh Hv) as G.
  cbv zeta in G. unfold utils_canvas_before_grid in G at 1.
  cbv zeta in G. rewrite G. reflexivity.
Qed.

(** [draw_grid_watermark] draws one instance per cell of the grid, once
    the image, if there is one, has been fitted. *)
Lemma draw_grid_watermark_counts
  (fit_image : R -> R -> R -> R -> R -> result (R * R)) (w : Canvas)
  (o : draw.DrawingOptions) (g : draw.GridOptions) (width height : R)
  (rot : ndarray22) :
  (0 < draw.horizontal_boxes g)%Z -> (0 < draw.vertical_boxes g)%Z ->
  (forall img, draw.image o = Some img ->
     exists d, fit_image (IZR (fst (getSize img))) (IZR (snd (getSize img)))
                 (width / IZR (draw.horizontal_boxes g))
                 (height / IZR (draw.vertical_boxes g)) (draw.image_scale o)
               = Ok d) ->
  exists w',
    draw.draw_grid_watermark fit_image w o g width height rot = Ok w' /\
    drew_instances
      (grid_cells (draw.margin g) (draw.horizontal_boxes g)
         (draw.vertical_boxes g))
      (draw.text o) (draw.image o) w w'.
Proof.
  intros Hh Hv Hfit.
  rewrite draw_grid_watermark_points by lia.
  assert (Hdims : exists d,
            match draw.image o with
            | Some img =>
                fit_image (IZR (fst (getSize img))) (IZR (snd (getSize img)))
                  (width / IZR (draw.horizontal_boxes g))
                  (height / IZR (draw.vertical_boxes g)) (draw.image_scale o)
            | None => Ok (0, 0)
            end = Ok d).
  { destruct (draw.image o) as [img |].
    - apply Hfit. reflexivity.
    - eexists. reflexivity. }
  destruct Hdims as ([iw ih] & ->). cbv beta iota delta [bind].
  rewrite <- (grid_points_length (draw.margin g) width height
                (draw.horizontal_boxes g) (draw.vertical_boxes g) Hh Hv).
  apply at_points_counts. intros px py w0. eexists. split; [reflexivity |].
  unfold drew_instances. cbv beta.
  destruct (draw_one_watermark_counts w0 px py rot o iw ih) as [-> ->]. lia.
Qed.

(** [create_watermark_pdf] draws one instance per cell of the grid, when
    fitting the image, if there is one, succeeds. *)
Lemma create_watermark_pdf_counts (zh : list str) (name : str)
  (width height : R) (o : utils.DrawingOptions) :
  (0 < utils.horizontal_boxes o)%Z -> (0 < utils.vertical_boxes o)%Z ->
  (forall img, utils.image o = Some img ->
     exists d, utils.fit_image (IZR (fst (getSize img)))
                 (IZR (snd (getSize img)))
                 (width / IZR (utils.horizontal_boxes o))
                 (height / IZR (utils.vertical_boxes o))
                 (utils.image_scale o)
               = Ok d) ->
  exists w',
    utils.create_watermark_pdf zh name width height o = Ok w' /\
    drew_instances
      (grid_cells (utils.margin o) (utils.horizontal_boxes o)
         (utils.vertical_boxes o))
      (utils.text o) (utils.image o) (new_Canvas name width height) w'.
Proof.
  intros Hh Hv Hfit.
  rewrite create_watermark_pdf_points by lia. cbv zeta.
  destruct (utils_chinese_font_fields zh o)
    as (Et & Ei & Es & _).
  destruct (at_points_counts
              (grid_points (utils.margin o) width height
                 (utils.horizontal_boxes o) (utils.vertical_boxes o))
              (utils.draw_at (utils.chinese_font zh o)
                 (width / IZR (utils.horizontal_boxes o))
                 (height / IZR (utils.vertical_boxes o))
                 (array22 (cos (utils.angle o * PI / 180))
                    (- sin (utils.angle o * PI / 180))
                    (sin (utils.angle o * PI / 180))
                    (cos (utils.angle o * PI / 180))))
              (utils.text o) (utils.image o)
              (utils_canvas_before_grid zh name width height o))
    as (w1 & E1 & D1).
  { intros px py w0.
    destruct (draw_at_counts (utils.chinese_font zh o)
                (width / IZR (utils.horizontal_boxes o))
                (height / IZR (utils.vertical_boxes o))
                (array22 (cos (utils.angle o * PI / 180))
                   (- sin (utils.angle o * PI / 180))
                   (sin (utils.angle o * PI / 180))
                   (cos (utils.angle o * PI / 180)))
                px py w0) as (w1 & E & Ms & Mi).
    - rewrite Ei, Es. exact Hfit.
    - exists w1. split; [exact E |]. unfold drew_instances.
      rewrite Ms, Mi, Et, Ei. lia. }
  rewrite E1. cbn. eexists. split; [reflexivity |].
  apply drew_instances_emit; try reflexivity.
  rewrite grid_points_length in D1 by assumption.
  destruct D1 as [Ds Di]. unfold drew_instances.
  rewrite Ds, Di. unfold utils_canvas_before_grid.
  rewrite !strings_drawn_emit, !images_drawn_emit. cbn. lia.
Qed.

(** With no boxes along an axis the cell spacing cannot be computed. *)
Lemma draw_grid_watermark_zero_boxes
  (fit_image : R -> R -> R -> R -> R -> result (R * R)) (w : Canvas)
  (o : draw.DrawingOptions) (g : draw.GridOptions) (width height : R)
  (rot : ndarray22) :
  (draw.horizontal_boxes g = 0)%Z \/ (draw.vertical_boxes g = 0)%Z ->
  draw.draw_grid_watermark fit_image w o g width height rot
  = Raise ZeroDivisionError.
Proof.
  intros H. unfold draw.draw_grid_watermark. cbv beta iota zeta.
  destruct (Z.eq_dec (draw.horizontal_boxes g) 0) as [E | N].
  - rewrite E, truediv_zero. reflexivity.
  - destruct H as [E | E]; [contradiction |].
    rewrite (truediv_ok width) by (apply not_0_IZR; exact N).
    rewrite E, truediv_zero. reflexivity.
Qed.

(** C3, amended: a grid of [hb] by [vb] boxes, both positive, draws one
    watermark instance per iterated cell: [(hb + 1) * (vb + 1)] instances
    when the margin flag is unset and [hb * vb] when it is set, in
    [draw_grid_watermark] and in [create_watermark_pdf] alike, provided
    fitting the image (when there is one) raises nothing. *)
Theorem grid_draws_one_instance_per_cell
  (fit_image : R -> R -> R -> R -> R -> result (R * R)) (w : Canvas)
  (o : draw.DrawingOptions) (g : draw.GridOptions) (rot : ndarray22)
  (zh : list str) (name : str) (uo : utils.DrawingOptions)
  (width height : R) :
  (0 < draw.horizontal_boxes g)%Z -> (0 < draw.vertical_boxes g)%Z ->
  (forall img, draw.image o = Some img ->
     exists d, fit_image (IZR (fst (getSize img))) (IZR (snd (getSize img)))
                 (width / IZR (draw.horizontal_boxes g))
                 (height / IZR (draw.vertical_boxes g)) (draw.image_scale o)
               = Ok d) ->
  (0 < utils.horizontal_boxes uo)%Z -> (0 < utils.vertical_boxes uo)%Z ->
  (forall img, utils.image uo = Some img ->
     exists d, utils.fit_image (IZR (fst (getSize img)))
                 (IZR (snd (getSize img)))
                 (width / IZR (utils.horizontal_boxes uo))
                 (height / IZR (utils.vertical_boxes uo))
                 (utils.image_scale uo)
               = Ok d) ->
  (exists w',
     draw.draw_grid_watermark fit_image w o g width height rot = Ok w' /\
     drew_instances
       (if draw.margin g
        then Z.to_nat (draw.horizontal_boxes g * draw.vertical_boxes g)
        else Z.to_nat ((draw.horizontal_boxes g + 1)
                       * (draw.vertical_boxes g + 1)))
       (draw.text o) (draw.image o) w w') /\
  (exists w',
     utils.create_watermark_pdf zh name width height uo = Ok w' /\
     drew_instances
       (if utils.margin uo
        then Z.to_nat (utils.horizontal_boxes uo * utils.vertical_boxes uo)
        else Z.to_nat ((utils.horizontal_boxes uo + 1)
                       * (utils.vertical_boxes uo + 1)))
       (utils.text uo) (utils.image uo) (new_Canvas name width height) w').
Proof.
  intros Hh Hv Hfit Huh Huv Hufit. split.
  - exact (draw_grid_watermark_counts fit_image w o g width height rot
             Hh Hv Hfit).
  - exact (create_watermark_pdf_counts zh name width height uo
             Huh Huv Hufit).
Qed.

Lemma grid_draws_one_instance_per_cell_witness :
  (exists w',
     draw.draw_grid_watermark utils.fit_image (new_Canvas [] 595 842)
       example.image_options (draw.mkGridOptions 3 2 true) 595 842
       example.identity_matrix = Ok w' /\
     drew_instances 6 None (Some example.logo)
       (new_Canvas [] 595 842) w') /\
  (exists w',
     utils.create_watermark_pdf example.get_all_zh_font [] 595 842
       (example.utils_text_options 3 2 false) = Ok w' /\
     drew_instances 12 (Some (str_of_string "DRAFT")) None
       (new_Canvas [] 595 842) w').
Proof.
  apply (grid_draws_one_instance_per_cell utils.fit_image
           (new_Canvas [] 595 842) example.image_options
           (draw.mkGridOptions 3 2 true) example.identity_matrix
           example.get_all_zh_font [] (example.utils_text_options 3 2 false)
           595 842); cbn; try lia.
  - intros img E. injection E as <-. cbn. apply fit_image_succeeds; lra.
  - intros img E. discriminate E.
Defined.

(** C3 as stated fails with the margin flag set: a grid of 1 by 1 boxes
    then draws one instance, not [(1 + 1) * (1 + 1)]. *)
Lemma grid_margin_counterexample :
  exists w',
    draw.draw_grid_watermark utils.fit_image (new_Canvas [] 595 842)
      example.text_options (draw.mkGridOptions 1 1 true) 595 842
      example.identity_matrix = Ok w' /\
    strings_drawn w' = 1%nat /\
    strings_drawn w' <> ((1 + 1) * (1 + 1))%nat.
Proof.
  rewrite draw_grid_watermark_points by (cbn; lia).
  cbn. eexists. split; [reflexivity |]. cbn. split; [reflexivity | lia].
Qed.

(** C4: with [hb] and [vb] boxes (neither zero) over a page of size
    [width] by [height], both grid functions draw, in order, at the points
    [(i * (width / hb), j * (height / vb))] for [i] in [0..hb] and [j] in
    [0..vb] when the margin flag is unset, and at those points less half a
    cell, [(width / (2 * hb), height / (2 * vb))], for [i] in [1..hb] and
    [j] in [1..vb] when it is set; these are the coordinates before
    rotation. *)
Theorem grid_coordinates
  (fit_image : R -> R -> R -> R -> R -> result (R * R)) (w : Canvas)
  (o : draw.DrawingOptions) (g : draw.GridOptions) (rot : ndarray22)
  (zh : list str) (name : str) (uo : utils.DrawingOptions)
  (width height : R) :
  (draw.horizontal_boxes g <> 0)%Z -> (draw.vertical_boxes g <> 0)%Z ->
  (utils.horizontal_boxes uo <> 0)%Z -> (utils.vertical_boxes uo <> 0)%Z ->
  (forall hb vb : Z,
     grid_points false width height hb vb
     = flat_map
         (fun i =>
            map (fun j => (IZR i * (width / IZR hb),
                           IZR j * (height / IZR vb)))
              (range 0 (vb + 1)))
         (range 0 (hb + 1)) /\
     grid_points true width height hb vb
     = flat_map
         (fun i =>
            map (fun j => (IZR i * (width / IZR hb) - width / (2 * IZR hb),
                           IZR j * (height / IZR vb) - height / (2 * IZR vb)))
              (range 1 (vb + 1)))
         (range 1 (hb + 1))) /\
  draw.draw_grid_watermark fit_image w o g width height rot
  = (let* (image_width, image_height) :=
       match draw.image o with
       | Some img =>
           fit_image (IZR (fst (getSize img))) (IZR (snd (getSize img)))
             (width / IZR (draw.horizontal_boxes g))
             (height / IZR (draw.vertical_boxes g)) (draw.image_scale o)
       | None => Ok (0, 0)
       end in
     at_points
       (grid_points (draw.margin g) width height (draw.horizontal_boxes g)
          (draw.vertical_boxes g))
       (fun x_base y_base watermark =>
          Ok (draw.draw_one_watermark watermark x_base y_base rot o
                image_width image_height))
       w) /\
  utils.create_watermark_pdf zh name width height uo
  = (let t := utils.angle uo * PI / 180 in
     let* watermark :=
       at_points
         (grid_points (utils.margin uo) width height
            (utils.horizontal_boxes uo) (utils.vertical_boxes uo))
         (utils.draw_at (utils.chinese_font zh uo)
            (width / IZR (utils.horizontal_boxes uo))
            (height / IZR (utils.vertical_boxes uo))
            (array22 (cos t) (- sin t) (sin t) (cos t)))
         (utils_canvas_before_grid zh name width height uo) in
     Ok (emit watermark save)).
Proof.
  intros Hh Hv Huh Huv. split; [| split].
  - intros hb vb. split; reflexivity.
  - apply draw_grid_watermark_points; assumption.
  - apply create_watermark_pdf_points; assumption.
Qed.

Lemma grid_coordinates_witness :
  draw.draw_grid_watermark utils.fit_image (new_Canvas [] 595 842)
    example.text_options (draw.mkGridOptions 2 1 true) 595 842
    example.identity_matrix
  = at_points
      [(IZR 1 * (595 / IZR 2) - 595 / (2 * IZR 2),
        IZR 1 * (842 / IZR 1) - 842 / (2 * IZR 1));
       (IZR 2 * (595 / IZR 2) - 595 / (2 * IZR 2),
        IZR 1 * (842 / IZR 1) - 842 / (2 * IZR 1))]
      (fun x_base y_base watermark =>
         Ok (draw.draw_one_watermark watermark x_base y_base
               example.identity_matrix example.text_options 0 0))
      (new_Canvas [] 595 842).
Proof.
  refine (proj1 (proj2
    (grid_coordinates utils.fit_image (new_Canvas [] 595 842)
       example.text_options (draw.mkGridOptions 2 1 true)
       example.identity_matrix example.get_all_zh_font []
       (example.utils_text_options 2 1 true) 595 842 _ _ _ _))); cbn; lia.
Defined.

(** ** Chinese text *)

Lemma is_chinese_same (t : str) : utils.is_chinese t = draw.is_chinese t.
Proof.
  induction t as [| ch rest IH]; cbn.
  - reflexivity.
  - rewrite IH. reflexivity.
Qed.

(** C6: [is_chinese t] holds exactly when some character of [t] has its
    code point between U+4E00 and U+9FFF inclusive, in [app/draw.py] and in
    [app/utils.py] alike; it does not hold of the empty string. *)
Theorem is_chinese_iff_some_character_in_range (t : str) :
  (draw.is_chinese t = true <->
   exists ch : N, In ch t /\ (0x4e00 <= ch <= 0x9fff)%N) /\
  (utils.is_chinese t = true <->
   exists ch : N, In ch t /\ (0x4e00 <= ch <= 0x9fff)%N) /\
  draw.is_chinese [] = false /\
  utils.is_chinese [] = false.
Proof.
  assert (D : draw.is_chinese t = true <->
              exists ch : N, In ch t /\ (0x4e00 <= ch <= 0x9fff)%N).
  { induction t as [| c rest IH]; cbn [draw.is_chinese].
    - split; [discriminate | intros (ch & [] & _)].
    - destruct ((0x4e00 <=? c) && (c <=? 0x9fff))%N eqn:E.
      + split; [| reflexivity]. intros _. exists c. split.
        * left. reflexivity.
        * apply andb_true_iff in E. destruct E as [E1 E2].
          apply N.leb_le in E1, E2. split; assumption.
      + rewrite IH. split.
        * intros (ch & Hin & Hr). exists ch. split; [right |]; assumption.
        * intros (ch & [-> | Hin] & Hr).
          -- exfalso. apply andb_false_iff in E.
             destruct E as [E | E]; apply N.leb_gt in E; lia.
          -- exists ch. split; assumption. }
  split; [exact D |]. split.
  - rewrite is_chinese_same. exact D.
  - split; reflexivity.
Qed.




(** ** Inserts *)

Section Insert.

Variable Alignments_value : draw.Alignments -> str.
Variable stringWidth : str -> str -> R -> R.
Variable fit_image : R -> R -> R -> R -> R -> result (R * R).

(** Distinct members of the enumeration have distinct values. *)
Hypothesis Alignments_value_inj :
  forall a b, Alignments_value a = Alignments_value b -> a = b.

Variables (w : Canvas) (o : draw.DrawingOptions) (so : draw.InsertOptions).
Variables (width height : R) (rot : ndarray22).

(** The chain of comparisons with the three values decodes the member. *)
Lemma alignment_chain {A : Type} (a : draw.Alignments)
  (on_left on_right on_center other : A) :
  draw.horizontal_alignment so = Alignments_value a ->
  (if str_eqb (draw.horizontal_alignment so) (Alignments_value draw.LEFT)
   then on_left
   else if str_eqb (draw.horizontal_alignment so)
             (Alignments_value draw.RIGHT)
   then on_right
   else if str_eqb (draw.horizontal_alignment so)
             (Alignments_value draw.CENTER)
   then on_center
   else other)
  = match a with
    | draw.LEFT => on_left
    | draw.RIGHT => on_right
    | draw.CENTER => on_center
    end.
Proof.
  intros ->.
  destruct a.
  - rewrite str_eqb_refl. reflexivity.
  - rewrite (str_eqb_neq (Alignments_value draw.RIGHT)
               (Alignments_value draw.LEFT))
      by (intros E; apply Alignments_value_inj in E; discriminate E).
    rewrite str_eqb_refl. reflexivity.
  - rewrite (str_eqb_neq (Alignments_value draw.CENTER)
               (Alignments_value draw.LEFT))
      by (intros E; apply Alignments_value_inj in E; discriminate E).
    rewrite (str_eqb_neq (Alignments_value draw.CENTER)
               (Alignments_value draw.RIGHT))
      by (intros E; apply Alignments_value_inj in E; discriminate E).
    rewrite str_eqb_refl. reflexivity.
Qed.

Lemma alignment_chain_invalid {A : Type}
  (on_left on_right on_center other : A) :
  (forall a, draw.horizontal_alignment so <> Alignments_value a) ->
  (if str_eqb (draw.horizontal_alignment so) (Alignments_value draw.LEFT)
   then on_left
   else if str_eqb (draw.horizontal_alignment so)
             (Alignments_value draw.RIGHT)
   then on_right
   else if str_eqb (draw.horizontal_alignment so)
             (Alignments_value draw.CENTER)
   then on_center
   else other)
  = other.
Proof.
  intros N. rewrite !str_eqb_neq by apply N. reflexivity.
Qed.

(** [draw_insert_watermark] under a valid alignment [a], in closed form:
    the watermark's width is the string's or the fitted image's, and one
    instance is drawn at the anchor point. *)
Lemma draw_insert_watermark_aligned (a : draw.Alignments) :
  draw.horizontal_alignment so = Alignments_value a ->
  draw.draw_insert_watermark Alignments_value stringWidth fit_image
    w o so width height rot
  = let* (watermark_width, (image_width, image_height)) :=
      match draw.text o with
      | Some t =>
          Ok (stringWidth t (draw.text_font o) (draw.text_size o), (0, 0))
      | None =>
          match draw.image o with
          | Some img =>
              let* (image_width, image_height) :=
                fit_image (IZR (fst (getSize img)))
                  (IZR (snd (getSize img)))
                  (insert_max_width a (draw.x so) width)
                  (insert_max_height (draw.y so) height)
                  (draw.image_scale o) in
              Ok (image_width, (image_width, image_height))
          | None => Raise ValueError_no_watermark
          end
      end in
    Ok (draw.draw_one_watermark w
          (draw.x so * width + alignment_offset a watermark_width)
          (draw.y so * height) rot o image_width image_height).
Proof.
  intros Ha. unfold draw.draw_insert_watermark.
  replace (Rmin (2 * draw.y so * height)
             (2 * (2 * (1 - draw.y so) * height)))
    with (insert_max_height (draw.y so) height)
    by (unfold insert_max_height; f_equal; ring).
  cbv beta iota zeta.
  assert (Eoff : forall ww : R,
    (if str_eqb (draw.horizontal_alignment so) (Alignments_value draw.LEFT)
     then Ok (- ww / 2)
     else if str_eqb (draw.horizontal_alignment so)
               (Alignments_value draw.RIGHT)
     then Ok (ww / 2)
     else if str_eqb (draw.horizontal_alignment so)
               (Alignments_value draw.CENTER)
     then Ok 0
     else Raise (ValueError_invalid_alignment
                   (draw.horizontal_alignment so)))
    = Ok (alignment_offset a ww)).
  { intros ww. rewrite (alignment_chain a) by exact Ha.
    destruct a; cbn; f_equal. field. }
  destruct (draw.text o) as [t |].
  - cbn. rewrite Eoff. reflexivity.
  - destruct (draw.image o) as [img |].
    + rewrite (alignment_chain a) by exact Ha.
      replace (match a with
               | draw.LEFT => Ok (draw.x so * width)
               | draw.RIGHT => Ok ((1 - draw.x so) * width)
               | draw.CENTER =>
                   Ok (Rmin (2 * (1 - draw.x so) * width)
                         (2 * draw.x so * width))
               end)
        with (@Ok R (insert_max_width a (draw.x so) width))
        by (destruct a; reflexivity).
      destruct (getSize img) as [pw ph]. cbn.
      destruct (fit_image (IZR pw) (IZR ph)
                  (insert_max_width a (draw.x so) width)
                  (insert_max_height (draw.y so) height)
                  (draw.image_scale o)) as [[iw ih] | e]; cbn.
      * rewrite Eoff. reflexivity.
      * reflexivity.
    + reflexivity.
Qed.

(** [draw_insert_watermark] under an alignment that is no member's value
    raises: for want of a watermark when there is neither text nor image,
    for the alignment otherwise. *)
Lemma draw_insert_watermark_invalid :
  (forall a, draw.horizontal_alignment so <> Alignments_value a) ->
  draw.draw_insert_watermark Alignments_value stringWidth fit_image
    w o so width height rot
  = Raise match draw.text o, draw.image o with
          | None, None => ValueError_no_watermark
          | _, _ => ValueError_invalid_alignment (draw.horizontal_alignment so)
          end.
Proof.
  intros N. unfold draw.draw_insert_watermark. cbv beta iota zeta.
  destruct (draw.text o) as [t |].
  - cbn. rewrite alignment_chain_invalid by exact N. reflexivity.
  - destruct (draw.image o) as [img |].
    + rewrite alignment_chain_invalid by exact N. reflexivity.
    + reflexivity.
Qed.

(** An alignment is some member's value or none's. *)
Lemma alignment_valid_or_not :
  (exists a, draw.horizontal_alignment so = Alignments_value a) \/
  (forall a, draw.horizontal_alignment so <> Alignments_value a).
Proof.
  destruct (str_eq_dec (draw.horizontal_alignment so)
              (Alignments_value draw.LEFT)) as [E | NL];
    [left; exists draw.LEFT; exact E |].
  destruct (str_eq_dec (draw.horizontal_alignment so)
              (Alignments_value draw.RIGHT)) as [E | NR];
    [left; exists draw.RIGHT; exact E |].
  destruct (str_eq_dec (draw.horizontal_alignment so)
              (Alignments_value draw.CENTER)) as [E | NC];
    [left; exists draw.CENTER; exact E |].
  right. intros []; assumption.
Qed.

End Insert.

(** C5: an insert whose alignment is the member [a] draws its single
    instance at the anchor point [(x * width + offset, y * height)], where
    [offset] is minus half the watermark's rendered width for LEFT, plus
    half of it for RIGHT and zero for CENTER; the rendered width is the
    string's width when there is a text and the fitted image's width when
    there is only an image. *)
Theorem insert_anchor_point
  (Alignments_value : draw.Alignments -> str)
  (stringWidth : str -> str -> R -> R)
  (fit_image : R -> R -> R -> R -> R -> result (R * R))
  (w : Canvas) (o : draw.DrawingOptions) (so : draw.InsertOptions)
  (width height : R) (rot : ndarray22) (a : draw.Alignments) :
  (forall a b, Alignments_value a = Alignments_value b -> a = b) ->
  draw.horizontal_alignment so = Alignments_value a ->
  let offset (watermark_width : R) : R :=
    match a with
    | draw.LEFT => - (watermark_width / 2)
    | draw.RIGHT => watermark_width / 2
    | draw.CENTER => 0
    end in
  (forall t : str,
     draw.text o = Some t ->
     draw.draw_insert_watermark Alignments_value stringWidth fit_image
       w o so width height rot
     = Ok (draw.draw_one_watermark w
             (draw.x so * width
              + offset (stringWidth t (draw.text_font o) (draw.text_size o)))
             (draw.y so * height) rot o 0 0)) /\
  (forall (img : ImageReader) (image_width image_height : R),
     draw.text o = None ->
     draw.image o = Some img ->
     fit_image (IZR (fst (getSize img))) (IZR (snd (getSize img)))
       (insert_max_width a (draw.x so) width)
       (insert_max_height (draw.y so) height) (draw.image_scale o)
     = Ok (image_width, image_height) ->
     draw.draw_insert_watermark Alignments_value stringWidth fit_image
       w o so width height rot
     = Ok (draw.draw_one_watermark w
             (draw.x so * width + offset image_width)
             (draw.y so * height) rot o image_width image_height)).
Proof.
  intros Hinj Ha offset.
  pose proof (draw_insert_watermark_aligned Alignments_value stringWidth
                fit_image Hinj w o so width height rot a Ha) as E.
  split.
  - intros t Et. rewrite E, Et. reflexivity.
  - intros img iw ih Et Ei Hfit. rewrite E, Et, Ei, Hfit. reflexivity.
Qed.

Lemma Alignments_value_inj (a b : draw.Alignments) :
  example.Alignments_value a = example.Alignments_value b -> a = b.
Proof. destruct a, b; intros E; try reflexivity; discriminate E. Qed.

Lemma insert_anchor_point_witness :
  draw.draw_insert_watermark example.Alignments_value example.stringWidth
    utils.fit_image (new_Canvas [] 595 842) example.text_options
    (draw.mkInsertOptions (1 / 2) (1 / 4) (str_of_string "right")) 595 842
    example.identity_matrix
  = Ok (draw.draw_one_watermark (new_Canvas [] 595 842)
          (1 / 2 * 595
           + example.stringWidth (str_of_string "DRAFT") example.helvetica 12
             / 2)
          (1 / 4 * 842) example.identity_matrix example.text_options 0 0).
Proof.
  exact (proj1
    (insert_anchor_point example.Alignments_value example.stringWidth
       utils.fit_image (new_Canvas [] 595 842) example.text_options
       (draw.mkInsertOptions (1 / 2) (1 / 4) (str_of_string "right"))
       595 842 example.identity_matrix draw.RIGHT
       Alignments_value_inj eq_refl)
    (str_of_string "DRAFT") eq_refl).
Defined.

(** C10: an insert with an image and no text, aligned as the member [a],
    fits the image to a box whose width is [x * width] for LEFT,
    [(1 - x) * width] for RIGHT and
    [min (2 * (1 - x) * width) (2 * x * width)] for CENTER, and whose
    height is [min (2 * y * height) (4 * (1 - y) * height)] whatever the
    alignment. *)
Theorem insert_image_box
  (Alignments_value : draw.Alignments -> str)
  (stringWidth : str -> str -> R -> R)
  (fit_image : R -> R -> R -> R -> R -> result (R * R))
  (w : Canvas) (o : draw.DrawingOptions) (so : draw.InsertOptions)
  (width height : R) (rot : ndarray22) (a : draw.Alignments)
  (img : ImageReader) :
  (forall a b, Alignments_value a = Alignments_value b -> a = b) ->
  draw.horizontal_alignment so = Alignments_value a ->
  draw.text o = None ->
  draw.image o = Some img ->
  draw.draw_insert_watermark Alignments_value stringWidth fit_image
    w o so width height rot
  = let* (image_width, image_height) :=
      fit_image (IZR (fst (getSize img))) (IZR (snd (getSize img)))
        match a with
        | draw.LEFT => draw.x so * width
        | draw.RIGHT => (1 - draw.x so) * width
        | draw.CENTER =>
            Rmin (2 * (1 - draw.x so) * width) (2 * draw.x so * width)
        end
        (Rmin (2 * draw.y so * height) (4 * (1 - draw.y so) * height))
        (draw.image_scale o) in
    Ok (draw.draw_one_watermark w
          (draw.x so * width + alignment_offset a image_width)
          (draw.y so * height) rot o image_width image_height).
Proof.
  intros Hinj Ha Et Ei.
  rewrite (draw_insert_watermark_aligned Alignments_value stringWidth
             fit_image Hinj w o so width height rot a Ha).
  rewrite Et, Ei. fold (insert_max_width a (draw.x so) width).
  fold (insert_max_height (draw.y so) height).
  destruct (fit_image (IZR (fst (getSize img))) (IZR (snd (getSize img)))
              (insert_max_width a (draw.x so) width)
              (insert_max_height (draw.y so) height) (draw.image_scale o))
    as [[iw ih] | e]; reflexivity.
Qed.

Lemma insert_image_box_witness :
  draw.draw_insert_watermark example.Alignments_value example.stringWidth
    utils.fit_image (new_Canvas [] 595 842) example.image_options
    (draw.mkInsertOptions (1 / 2) (1 / 4) (str_of_string "center")) 595 842
    example.identity_matrix
  = let* (image_width, image_height) :=
      utils.fit_image (IZR 400) (IZR 200)
        (Rmin (2 * (1 - 1 / 2) * 595) (2 * (1 / 2) * 595))
        (Rmin (2 * (1 / 4) * 842) (4 * (1 - 1 / 4) * 842)) 1 in
    Ok (draw.draw_one_watermark (new_Canvas [] 595 842)
          (1 / 2 * 595 + 0) (1 / 4 * 842) example.identity_matrix
          example.image_options image_width image_height).
Proof.
  exact (insert_image_box example.Alignments_value example.stringWidth
           utils.fit_image (new_Canvas [] 595 842) example.image_options
           (draw.mkInsertOptions (1 / 2) (1 / 4) (str_of_string "center"))
           595 842 example.identity_matrix draw.CENTER example.logo
           Alignments_value_inj eq_refl eq_refl eq_refl).
Defined.

(** C8, amended: [draw_insert_watermark] raises exactly when the alignment
    is the value of none of LEFT, RIGHT and CENTER, or there is neither a
    text nor an image to draw, or fitting the image raises (an error it
    passes on); the first two are errors of its own. *)
Theorem draw_insert_watermark_raises_iff
  (Alignments_value : draw.Alignments -> str)
  (stringWidth : str -> str -> R -> R)
  (fit_image : R -> R -> R -> R -> R -> result (R * R))
  (w : Canvas) (o : draw.DrawingOptions) (so : draw.InsertOptions)
  (width height : R) (rot : ndarray22) :
  (forall a b, Alignments_value a = Alignments_value b -> a = b) ->
  (exists e,
     draw.draw_insert_watermark Alignments_value stringWidth fit_image
       w o so width height rot = Raise e)
  <->
  ((forall a, draw.horizontal_alignment so <> Alignments_value a) \/
   (draw.text o = None /\ draw.image o = None) \/
   (exists a img e,
      draw.horizontal_alignment so = Alignments_value a /\
      draw.text o = None /\ draw.image o = Some img /\
      fit_image (IZR (fst (getSize img))) (IZR (snd (getSize img)))
        (insert_max_width a (draw.x so) width)
        (insert_max_height (draw.y so) height) (draw.image_scale o)
      = Raise e)).
Proof.
  intros Hinj. split.
  - intros (e & E).
    destruct (alignment_valid_or_not Alignments_value so)
      as [(a & Ha) | N]; [| left; exact N].
    right.
    rewrite (draw_insert_watermark_aligned Alignments_value stringWidth
               fit_image Hinj w o so width height rot a Ha) in E.
    destruct (draw.text o) as [t |]; [discriminate E |].
    destruct (draw.image o) as [img |]; [| left; split; reflexivity].
    right. exists a, img.
    destruct (fit_image (IZR (fst (getSize img))) (IZR (snd (getSize img)))
                (insert_max_width a (draw.x so) width)
                (insert_max_height (draw.y so) height) (draw.image_scale o))
      as [[iw ih] | e'].
    + discriminate E.
    + exists e'. repeat split. exact Ha.
  - intros [N | [[Et Ei] | (a & img & e & Ha & Et & Ei & Hfit)]].
    + eexists. apply draw_insert_watermark_invalid. exact N.
    + destruct (alignment_valid_or_not Alignments_value so)
        as [(a & Ha) | N].
      * exists ValueError_no_watermark.
        rewrite (draw_insert_watermark_aligned Alignments_value stringWidth
                   fit_image Hinj w o so width height rot a Ha).
        rewrite Et, Ei. reflexivity.
      * eexists. apply draw_insert_watermark_invalid. exact N.
    + exists e.
      rewrite (draw_insert_watermark_aligned Alignments_value stringWidth
                 fit_image Hinj w o so width height rot a Ha).
      rewrite Et, Ei, Hfit. reflexivity.
Qed.

Lemma draw_insert_watermark_raises_iff_witness :
  (exists e,
     draw.draw_insert_watermark example.Alignments_value example.stringWidth
       utils.fit_image (new_Canvas [] 595 842) example.text_options
       (draw.mkInsertOptions (1 / 2) (1 / 4) (str_of_string "top")) 595 842
       example.identity_matrix = Raise e).
Proof.
  apply (draw_insert_watermark_raises_iff example.Alignments_value
           example.stringWidth utils.fit_image (new_Canvas [] 595 842)
           example.text_options
           (draw.mkInsertOptions (1 / 2) (1 / 4) (str_of_string "top"))
           595 842 example.identity_matrix Alignments_value_inj).
  left. intros a E. destruct a; discriminate E.
Defined.

(** C8 as stated fails: with the valid alignment LEFT and neither text nor
    image, [draw_insert_watermark] raises all the same. *)
Lemma no_watermark_counterexample :
  draw.horizontal_alignment
    (draw.mkInsertOptions (1 / 2) (1 / 4) (str_of_string "left"))
  = example.Alignments_value draw.LEFT /\
  draw.draw_insert_watermark example.Alignments_value example.stringWidth
    utils.fit_image (new_Canvas [] 595 842) example.no_options
    (draw.mkInsertOptions (1 / 2) (1 / 4) (str_of_string "left")) 595 842
    example.identity_matrix
  = Raise ValueError_no_watermark.
Proof. split; reflexivity. Qed.

(** ** Composition *)

(** The merging loop, when the watermark file has a first page: every
    page, in order, with that page merged onto it. *)
Lemma merge_loop {Page : Type} (mergePage : Page -> Page -> Page)
  (watermark_pdf : list Page) (watermark_page : Page) (others : list Page)
  (pages pdf_writer : list Page) :
  watermark_pdf = watermark_page :: others ->
  for_each pages
    (fun page pdf_writer =>
       let* watermark_page := getitem watermark_pdf 0 in
       Ok (pdf_writer ++ [mergePage page watermark_page]))
    pdf_writer
  = Ok (pdf_writer ++ map (fun page => mergePage page watermark_page) pages).
Proof.
  intros ->. revert pdf_writer.
  induction pages as [| page pages IH]; intros pdf_writer; cbn.
  - rewrite app_nil_r. reflexivity.
  - rewrite IH, <- app_assoc. reflexivity.
Qed.

Lemma nth_error_merged {Page : Type} (f : Page -> Page) (pages : list Page)
  (i : nat) :
  nth_error (map f pages) i = option_map f (nth_error pages i).
Proof.
  revert i. induction pages as [| page pages IH]; intros [| i]; cbn;
    try reflexivity.
  apply IH.
Qed.

(** C7, amended: for an input PDF with at least one page, when rendering
    the watermark raises nothing and the rendered file has a first page,
    [add_watermark_to_pdf] (of [app/handler.py] and of [app/utils.py])
    writes the input's pages, as many and in the same order, each with that
    watermark page merged onto it. *)
Theorem add_watermark_to_pdf_merges_every_page
  (Alignments_value : draw.Alignments -> str)
  (stringWidth : str -> str -> R -> R)
  (fit_image : R -> R -> R -> R -> R -> result (R * R))
  (platform_system : str) (get_all_zh_font : list str)
  (Page : Type) (mediaBox : Page -> R * R)
  (mergePage : Page -> Page -> Page)
  (PdfFileReader_pages : Canvas -> list Page) (temporary_file_name : str)
  (input : list Page) (first_page : Page) (rest : list Page)
  (o : draw.DrawingOptions) (so : draw.SpecificOptions)
  (uo : utils.DrawingOptions)
  (temporary_file utils_temporary_file : Canvas)
  (watermark_page utils_watermark_page : Page)
  (others utils_others : list Page) :
  input = first_page :: rest ->
  draw.draw_watermarks Alignments_value stringWidth fit_image
    platform_system get_all_zh_font temporary_file_name
    (fst (mediaBox first_page)) (snd (mediaBox first_page)) o so
  = Ok temporary_file ->
  PdfFileReader_pages temporary_file = watermark_page :: others ->
  utils.create_watermark_pdf get_all_zh_font temporary_file_name
    (fst (mediaBox first_page)) (snd (mediaBox first_page)) uo
  = Ok utils_temporary_file ->
  PdfFileReader_pages utils_temporary_file
  = utils_watermark_page :: utils_others ->
  (let output := map (fun page => mergePage page watermark_page) input in
   handler.add_watermark_to_pdf Alignments_value stringWidth fit_image
     platform_system get_all_zh_font Page mediaBox mergePage
     PdfFileReader_pages temporary_file_name input o so
   = Ok output /\
   length output = length input /\
   forall i : nat,
     nth_error output i
     = option_map (fun page => mergePage page watermark_page)
         (nth_error input i)) /\
  (let output :=
     map (fun page => mergePage page utils_watermark_page) input in
   utils.add_watermark_to_pdf get_all_zh_font Page mediaBox mergePage
     PdfFileReader_pages temporary_file_name input uo
   = Ok output /\
   length output = length input /\
   forall i : nat,
     nth_error output i
     = option_map (fun page => mergePage page utils_watermark_page)
         (nth_error input i)).
Proof.
  intros Hin Hdraw Hread Hudraw Huread. split.
  - cbv zeta. split; [| split].
    + unfold handler.add_watermark_to_pdf. cbv zeta.
      replace (getitem input 0) with (Ok first_page)
        by (rewrite Hin; reflexivity).
      unfold bind at 1.
      destruct (mediaBox first_page) as [page_width page_height].
      cbn [fst snd] in Hdraw. rewrite Hdraw. unfold bind at 1.
      rewrite (merge_loop mergePage _ watermark_page others input []
                 Hread).
      reflexivity.
    + apply length_map.
    + intros i. apply nth_error_merged.
  - cbv zeta. split; [| split].
    + unfold utils.add_watermark_to_pdf. cbv zeta.
      replace (getitem input 0) with (Ok first_page)
        by (rewrite Hin; reflexivity).
      unfold bind at 1.
      destruct (mediaBox first_page) as [page_width page_height].
      cbn [fst snd] in Hudraw. rewrite Hudraw. unfold bind at 1.
      rewrite (merge_loop mergePage _ utils_watermark_page utils_others
                 input [] Huread).
      reflexivity.
    + apply length_map.
    + intros i. apply nth_error_merged.
Qed.

(** C7 as stated fails on a PDF without pages: reading the first page's
    box raises, and nothing is written. *)
Lemma empty_pdf_counterexample :
  handler.add_watermark_to_pdf example.Alignments_value example.stringWidth
    utils.fit_image example.platform_system example.get_all_zh_font
    example.Page example.mediaBox example.mergePage
    example.PdfFileReader_pages example.temporary_file_name
    [] example.text_options
    (draw.Insert (draw.mkInsertOptions (1 / 2) (1 / 4)
                    (str_of_string "left")))
  = Raise IndexError.
Proof. reflexivity. Qed.

Lemma add_watermark_to_pdf_merges_every_page_witness :
  exists watermark_page utils_watermark_page : example.Page,
    handler.add_watermark_to_pdf example.Alignments_value
      example.stringWidth utils.fit_image example.platform_system
      example.get_all_zh_font example.Page example.mediaBox
      example.mergePage example.PdfFileReader_pages
      example.temporary_file_name [example.page1; example.page2] example.text_options
      (draw.Insert (draw.mkInsertOptions (1 / 2) (1 / 4)
                      (str_of_string "left")))
    = Ok [example.mergePage example.page1 watermark_page;
          example.mergePage example.page2 watermark_page] /\
    utils.add_watermark_to_pdf example.get_all_zh_font example.Page
      example.mediaBox example.mergePage example.PdfFileReader_pages
      example.temporary_file_name [example.page1; example.page2]
      (example.utils_text_options 3 2 false)
    = Ok [example.mergePage example.page1 utils_watermark_page;
          example.mergePage example.page2 utils_watermark_page].
Proof.
  destruct (create_watermark_pdf_counts example.get_all_zh_font
              example.temporary_file_name 595 842
              (example.utils_text_options 3 2 false))
    as (utils_temporary_file & Eu & _).
  { cbn. lia. }
  { cbn. lia. }
  { intros img E. discriminate E. }
  eexists.
  exists (example.mkPage (pagesize utils_temporary_file)
            (code utils_temporary_file)).
  edestruct (add_watermark_to_pdf_merges_every_page
               example.Alignments_value example.stringWidth utils.fit_image
               example.platform_system example.get_all_zh_font example.Page
               example.mediaBox example.mergePage
               example.PdfFileReader_pages example.temporary_file_name
               [example.page1; example.page2] example.page1 [example.page2] example.text_options
               (draw.Insert (draw.mkInsertOptions (1 / 2) (1 / 4)
                               (str_of_string "left")))
               (example.utils_text_options 3 2 false))
    as [[H _] [Hu _]].
  - reflexivity.
  - reflexivity.
  - reflexivity.
  - exact Eu.
  - reflexivity.
  - split; [exact H | exact Hu].
Defined.

(** * More of the code *)

(** ** Rotation *)

(** X3: an angle of zero leaves every point where it is: the cosine is
    one and the sine zero, so [change_base] returns its point and an
    instance is drawn at its layout coordinates. *)
Theorem change_base_at_angle_zero (x y : R) (w : Canvas) (t : str)
  (font color : str) (size opacity scale : R) :
  let rotation_angle_rad := 0 * PI / 180 in
  let rotation_matrix :=
    array22 (cos rotation_angle_rad) (- sin rotation_angle_rad)
            (sin rotation_angle_rad) (cos rotation_angle_rad) in
  rotation_matrix = array22 1 (- 0) 0 1 /\
  utils.change_base x y rotation_matrix = (x, y) /\
  draw.draw_one_watermark w x y rotation_matrix
    (draw.mkDrawingOptions (Some t) None font size color opacity 0 scale)
    0 0
  = emit w (drawCentredString x y t).
Proof.
  intros rotation_angle_rad rotation_matrix.
  assert (M : rotation_matrix = array22 1 (- 0) 0 1).
  { unfold rotation_matrix, rotation_angle_rad.
    replace (0 * PI / 180) with 0 by field.
    rewrite cos_0, sin_0. reflexivity. }
  assert (C : utils.change_base x y rotation_matrix = (x, y)).
  { rewrite M. unfold utils.change_base. cbn. f_equal; ring. }
  split; [exact M |]. split; [exact C |].
  unfold draw.draw_one_watermark. rewrite C. reflexivity.
Qed.

(** ** Chinese text, continued *)

(** X5: a text made of two parts has a Chinese character exactly when one
    of the parts has. *)
Theorem is_chinese_app (a b : str) :
  draw.is_chinese (a ++ b) = draw.is_chinese a || draw.is_chinese b /\
  utils.is_chinese (a ++ b) = utils.is_chinese a || utils.is_chinese b.
Proof.
  assert (D : draw.is_chinese (a ++ b)
              = draw.is_chinese a || draw.is_chinese b).
  { induction a as [| ch a IH]; cbn.
    - reflexivity.
    - destruct ((19968 <=? ch) && (ch <=? 40959))%N; [reflexivity | exact IH]. }
  split; [exact D |]. rewrite !is_chinese_same. exact D.
Qed.

Lemma str_of_string_ascii (s : string) :
  Forall (fun ch => (ch < 256)%N) (str_of_string s).
Proof.
  induction s as [| c s IH]; cbn.
  - constructor.
  - constructor; [apply N_ascii_bounded | exact IH].
Qed.

Lemma is_chinese_below (t : str) :
  Forall (fun ch => (ch < 0x4e00)%N) t -> draw.is_chinese t = false.
Proof.
  induction 1 as [| ch t Hch _ IH]; cbn.
  - reflexivity.
  - replace (19968 <=? ch)%N with false
      by (symmetry; apply N.leb_gt; exact Hch).
    exact IH.
Qed.

(** X6: a text whose characters all lie below U+4E00, as every text of
    single-byte characters does, is not Chinese, and the font step of
    either module then leaves the drawing options as they are. *)
Theorem text_below_range_keeps_font (t : str) (plat : str) (zh : list str)
  (o : draw.DrawingOptions) (uo : utils.DrawingOptions) :
  Forall (fun ch => (ch < 0x4e00)%N) t ->
  draw.text o = Some t ->
  utils.text uo = Some t ->
  draw.is_chinese t = false /\
  utils.is_chinese t = false /\
  draw.chinese_font plat zh o = o /\
  utils.chinese_font zh uo = uo.
Proof.
  intros H Et Eut.
  assert (A : draw.is_chinese t = false) by (apply is_chinese_below; exact H).
  assert (B : utils.is_chinese t = false)
    by (transitivity (draw.is_chinese t); [apply is_chinese_same | exact A]).
  repeat split; try assumption.
  - unfold draw.chinese_font. rewrite Et, A. reflexivity.
  - unfold utils.chinese_font. rewrite Eut, B. reflexivity.
Qed.

Lemma text_below_range_keeps_font_witness :
  draw.is_chinese (str_of_string "DRAFT") = false /\
  utils.is_chinese (str_of_string "DRAFT") = false /\
  draw.chinese_font example.platform_system example.get_all_zh_font
    example.text_options = example.text_options /\
  utils.chinese_font example.get_all_zh_font
    (example.utils_text_options 3 2 false)
  = example.utils_text_options 3 2 false.
Proof.
  apply (text_below_range_keeps_font (str_of_string "DRAFT")).
  - eapply Forall_impl; [| apply (str_of_string_ascii "DRAFT")].
    cbv beta. intros ch H. lia.
  - reflexivity.
  - reflexivity.
Defined.

(** ** Box fitting, continued *)

Lemma fit_box_unchanged (iw ih mw mh : R) :
  iw <= mw -> ih <= mh -> utils.fit_box iw ih mw mh = Ok (iw, ih).
Proof.
  intros Hw Hh. unfold utils.fit_box.
  destruct (Rgt_dec iw mw) as [G | _]; [lra |]. cbn.
  destruct (Rgt_dec ih mh) as [G | _]; [lra |]. reflexivity.
Qed.

(** X7: an image that is inside the box already is left as it is, whatever
    its size (zero and negative sizes included): fitting only ever shrinks,
    and [fit_image] then just applies the scale factor. *)
Theorem fit_image_leaves_fitting_image (iw ih mw mh s : R) :
  iw <= mw -> ih <= mh ->
  utils.fit_box iw ih mw mh = Ok (iw, ih) /\
  utils.fit_image iw ih mw mh s = Ok (iw * s, ih * s).
Proof.
  intros Hw Hh. split.
  - apply fit_box_unchanged; assumption.
  - unfold utils.fit_image. rewrite fit_box_unchanged by assumption.
    reflexivity.
Qed.

Lemma fit_image_leaves_fitting_image_witness :
  utils.fit_box 50 20 100 100 = Ok (50, 20) /\
  utils.fit_image 50 20 100 100 2 = Ok (50 * 2, 20 * 2).
Proof.
  apply (fit_image_leaves_fitting_image 50 20 100 100 2); lra.
Defined.

(** The factor of the shrinking steps on positive sizes, computed. *)
Lemma fit_box_min_factor (iw ih mw mh : R) :
  0 < iw -> 0 < ih -> 0 < mw -> 0 < mh ->
  let k := Rmin 1 (Rmin (mw / iw) (mh / ih)) in
  utils.fit_box iw ih mw mh = Ok (k * iw, k * ih).
Proof.
  intros Hiw Hih Hmw Hmh k.
  set (a := mw / iw) in *. set (b := mh / ih) in *.
  assert (Ha : a * iw = mw) by (unfold a; field; lra).
  assert (Hb : b * ih = mh) by (unfold b; field; lra).
  assert (Ha0 : 0 < a) by (unfold a; apply Rdiv_lt_0_compat; lra).
  assert (Hb0 : 0 < b) by (unfold b; apply Rdiv_lt_0_compat; lra).
  unfold utils.fit_box.
  destruct (Rgt_dec iw mw) as [Hw | Hw].
  - rewrite truediv_ok by lra. cbn. fold a.
    assert (Ha1 : a < 1) by nra.
    destruct (Rgt_dec (ih * a) mh) as [Hh | Hh].
    + assert (Hpos : 0 < ih * a) by nra.
      rewrite truediv_ok by lra. cbn.
      assert (Hba : b < a) by nra.
      assert (Hk : k = b)
        by (unfold k, Rmin; repeat destruct (Rle_dec _ _); lra).
      rewrite Hk. f_equal. f_equal.
      * rewrite <- Ha, <- Hb. field. lra.
      * symmetry. exact Hb.
    + cbn. assert (Hab : a <= b) by nra.
      assert (Hk : k = a)
        by (unfold k, Rmin; repeat destruct (Rle_dec _ _); lra).
      rewrite Hk. f_equal. f_equal; [symmetry; exact Ha | ring].
  - cbn. assert (Ha1 : 1 <= a) by nra.
    destruct (Rgt_dec ih mh) as [Hh | Hh].
    + rewrite truediv_ok by lra. cbn. fold b.
      assert (Hb1 : b < 1) by nra.
      assert (Hk : k = b)
        by (unfold k, Rmin; repeat destruct (Rle_dec _ _); lra).
      rewrite Hk. f_equal. f_equal; [ring | symmetry; exact Hb].
    + cbn. assert (Hb1 : 1 <= b) by nra.
      assert (Hk : k = 1)
        by (unfold k, Rmin; repeat destruct (Rle_dec _ _); lra).
      rewrite Hk. f_equal. f_equal; ring.
Qed.

(** X8: an image of positive size that is not inside its box (of positive
    size) is shrunk until it touches it: the fitted width is the maximal
    width or the fitted height is the maximal height, the steps assigning
    the bound itself. *)
Theorem fit_box_touches_box (iw ih mw mh : R) :
  0 < iw -> 0 < ih -> 0 < mw -> 0 < mh ->
  mw < iw \/ mh < ih ->
  exists fw fh : R,
    utils.fit_box iw ih mw mh = Ok (fw, fh) /\ (fw = mw \/ fh = mh).
Proof.
  intros Hiw Hih Hmw Hmh Hout. unfold utils.fit_box.
  destruct (Rgt_dec iw mw) as [Hw | Hw].
  - rewrite truediv_ok by lra. cbn.
    assert (Hpos : 0 < ih * (mw / iw)).
    { apply Rmult_lt_0_compat; [exact Hih |].
      apply Rdiv_lt_0_compat; assumption. }
    destruct (Rgt_dec (ih * (mw / iw)) mh) as [Hh | Hh].
    + rewrite truediv_ok by lra. cbn.
      eexists. eexists. split; [reflexivity |]. right. reflexivity.
    + eexists. eexists. split; [reflexivity |]. left. reflexivity.
  - cbn. destruct (Rgt_dec ih mh) as [Hh | Hh].
    + rewrite truediv_ok by lra. cbn.
      eexists. eexists. split; [reflexivity |]. right. reflexivity.
    + exfalso. destruct Hout; lra.
Qed.

Lemma fit_box_touches_box_witness :
  exists fw fh : R,
    utils.fit_box 640 480 200 421 = Ok (fw, fh) /\ (fw = 200 \/ fh = 421).
Proof.
  apply (fit_box_touches_box 640 480 200 421); lra.
Defined.

(** X9: fitting is idempotent on positive sizes: a fitted size, fitted to
    the same box again, comes back unchanged. *)
Theorem fit_box_idempotent (iw ih mw mh fw fh : R) :
  0 < iw -> 0 < ih -> 0 < mw -> 0 < mh ->
  utils.fit_box iw ih mw mh = Ok (fw, fh) ->
  utils.fit_box fw fh mw mh = Ok (fw, fh).
Proof.
  intros Hiw Hih Hmw Hmh E.
  destruct (fit_box_factor iw ih mw mh Hiw Hih Hmw Hmh)
    as (k & _ & Hbox & Hfw & Hfh).
  rewrite Hbox in E. injection E as <- <-.
  apply fit_box_unchanged; assumption.
Qed.

Lemma fit_box_factor_exact_example :
  utils.fit_box 400 200 100 100
  = Ok (Rmin 1 (Rmin (100 / 400) (100 / 200)) * 400,
        Rmin 1 (Rmin (100 / 400) (100 / 200)) * 200).
Proof.
  assert (K : Rmin 1 (Rmin (100 / 400) (100 / 200)) = 100 / 400)
    by (unfold Rmin; repeat destruct (Rle_dec _ _); lra).
  rewrite K. unfold utils.fit_box.
  destruct (Rgt_dec 400 100) as [_ | N]; [| lra].
  rewrite truediv_ok by lra. cbn.
  destruct (Rgt_dec (200 * (100 / 400)) 100) as [G | _]; [lra |].
  cbn. f_equal. f_equal; field.
Qed.

Lemma fit_box_idempotent_witness :
  utils.fit_box (Rmin 1 (Rmin (100 / 400) (100 / 200)) * 400)
    (Rmin 1 (Rmin (100 / 400) (100 / 200)) * 200) 100 100
  = Ok (Rmin 1 (Rmin (100 / 400) (100 / 200)) * 400,
        Rmin 1 (Rmin (100 / 400) (100 / 200)) * 200).
Proof.
  apply (fit_box_idempotent 400 200 100 100); try lra.
  apply fit_box_factor_exact_example.
Defined.

(** X10: with a box of non-negative sides fitting never raises, whatever
    the size of the image (a zero or negative size included), and the
    fitted size is inside the box. *)
Theorem fit_box_total_on_nonnegative_box (iw ih mw mh : R) :
  0 <= mw -> 0 <= mh ->
  exists fw fh : R,
    utils.fit_box iw ih mw mh = Ok (fw, fh) /\ fw <= mw /\ fh <= mh.
Proof.
  intros Hmw Hmh. unfold utils.fit_box.
  assert (Step2 : forall w1 h1 : R, w1 <= mw ->
            exists fw fh : R,
              (if Rgt_dec h1 mh
               then let* change_ratio := truediv mh h1 in
                    Ok (w1 * change_ratio, mh)
               else Ok (w1, h1)) = Ok (fw, fh) /\ fw <= mw /\ fh <= mh).
  { intros w1 h1 Hw1. destruct (Rgt_dec h1 mh) as [Hh | Hh].
    - rewrite truediv_ok by lra. cbn.
      set (q := mh / h1).
      assert (Hq : q * h1 = mh) by (unfold q; field; lra).
      assert (Hq0 : 0 <= q).
      { unfold q, Rdiv. apply Rmult_le_pos; [lra |].
        left. apply Rinv_0_lt_compat. lra. }
      assert (Hq1 : q < 1) by nra.
      exists (w1 * q), mh. split; [reflexivity |]. split; [| lra].
      destruct (Rle_dec 0 w1); nra.
    - exists w1, h1. split; [reflexivity |]. lra. }
  destruct (Rgt_dec iw mw) as [Hw | Hw].
  - rewrite truediv_ok by lra. cbn. apply Step2. lra.
  - cbn. apply Step2. lra.
Qed.

Lemma fit_box_total_on_nonnegative_box_witness :
  exists fw fh : R,
    utils.fit_box 0 (-3) 0 5 = Ok (fw, fh) /\ fw <= 0 /\ fh <= 5.
Proof.
  apply (fit_box_total_on_nonnegative_box 0 (-3) 0 5); lra.
Defined.


(** ** Grids, continued *)

Lemma range_nil (lo hi : Z) : (hi <= lo)%Z -> range lo hi = [].
Proof.
  intros H. unfold range. replace (Z.to_nat (hi - lo)) with 0%nat by lia.
  reflexivity.
Qed.

Lemma grid_points_nil (margin : bool) (width height : R) (hb vb : Z) :
  (hb < 0)%Z \/ (vb < 0)%Z -> grid_points margin width height hb vb = [].
Proof.
  intros [H | H]; unfold grid_points, grid_indices.
  - rewrite (range_nil _ (hb + 1)) by (destruct margin; lia). reflexivity.
  - rewrite (range_nil _ (vb + 1)) by (destruct margin; lia).
    induction (range (if margin then 1%Z else 0%Z) (hb + 1)) as [| i l IH].
    + reflexivity.
    + cbn. exact IH.
Qed.



(** X13: a grid with a negative number of boxes along an axis (and none
    zero) has no cell: [draw_grid_watermark] fits the image, if there is
    one, and returns the canvas as it got it; [create_watermark_pdf] sets
    the canvas up and saves it without fitting or drawing anything. *)
Theorem grid_negative_boxes_draw_nothing
  (fit_image : R -> R -> R -> R -> R -> result (R * R)) (w : Canvas)
  (o : draw.DrawingOptions) (g : draw.GridOptions) (rot : ndarray22)
  (zh : list str) (name : str) (uo : utils.DrawingOptions)
  (width height : R) :
  (draw.horizontal_boxes g <> 0)%Z -> (draw.vertical_boxes g <> 0)%Z ->
  (draw.horizontal_boxes g < 0)%Z \/ (draw.vertical_boxes g < 0)%Z ->
  (utils.horizontal_boxes uo <> 0)%Z -> (utils.vertical_boxes uo <> 0)%Z ->
  (utils.horizontal_boxes uo < 0)%Z \/ (utils.vertical_boxes uo < 0)%Z ->
  draw.draw_grid_watermark fit_image w o g width height rot
  = match draw.image o with
    | Some img =>
        let* _ :=
          fit_image (IZR (fst (getSize img))) (IZR (snd (getSize img)))
            (width / IZR (draw.horizontal_boxes g))
            (height / IZR (draw.vertical_boxes g)) (draw.image_scale o) in
        Ok w
    | None => Ok w
    end /\
  utils.create_watermark_pdf zh name width height uo
  = Ok (emit (utils_canvas_before_grid zh name width height uo) save).
Proof.
  intros Hh Hv Hneg Huh Huv Huneg. split.
  - rewrite draw_grid_watermark_points by assumption.
    rewrite grid_points_nil by exact Hneg.
    destruct (draw.image o) as [img |]; [| reflexivity].
    destruct (fit_image _ _ _ _ _) as [[iw ih] | e]; reflexivity.
  - rewrite create_watermark_pdf_points by assumption.
    rewrite grid_points_nil by exact Huneg. reflexivity.
Qed.

Lemma grid_negative_boxes_draw_nothing_witness :
  draw.draw_grid_watermark utils.fit_image (new_Canvas [] 595 842)
    example.text_options (draw.mkGridOptions (-2) 3 false) 595 842
    example.identity_matrix
  = Ok (new_Canvas [] 595 842) /\
  utils.create_watermark_pdf example.get_all_zh_font [] 595 842
    (example.utils_text_options 3 (-1) true)
  = Ok (emit (utils_canvas_before_grid example.get_all_zh_font [] 595 842
                (example.utils_text_options 3 (-1) true)) save).
Proof.
  apply (grid_negative_boxes_draw_nothing utils.fit_image
           (new_Canvas [] 595 842) example.text_options
           (draw.mkGridOptions (-2) 3 false) example.identity_matrix
           example.get_all_zh_font [] (example.utils_text_options 3 (-1) true)
           595 842); cbn; lia.
Defined.

Lemma cell_coordinate_margin_inside (extent : R) (boxes i : Z) :
  (0 < boxes)%Z -> 0 < extent -> (1 <= i <= boxes)%Z ->
  0 < cell_coordinate true extent boxes i < extent.
Proof.
  intros Hb He [Hi1 Hi2]. unfold cell_coordinate.
  apply IZR_lt in Hb. apply IZR_le in Hi1, Hi2.
  set (u := extent / IZR boxes).
  assert (Hu : u * IZR boxes = extent) by (unfold u; field; lra).
  assert (Hu0 : 0 < u) by (unfold u; apply Rdiv_lt_0_compat; lra).
  replace (extent / (2 * IZR boxes)) with (u / 2) by (unfold u; field; lra).
  split; nra.
Qed.

Lemma cell_coordinate_inside (extent : R) (boxes i : Z) :
  (0 < boxes)%Z -> 0 < extent -> (0 <= i <= boxes)%Z ->
  0 <= cell_coordinate false extent boxes i <= extent.
Proof.
  intros Hb He [Hi1 Hi2]. unfold cell_coordinate.
  apply IZR_lt in Hb. apply IZR_le in Hi1, Hi2.
  set (u := extent / IZR boxes).
  assert (Hu : u * IZR boxes = extent) by (unfold u; field; lra).
  assert (Hu0 : 0 < u) by (unfold u; apply Rdiv_lt_0_compat; lra).
  split; nra.
Qed.

(** X14: with the margin flag set, on a page and a grid of positive sizes,
    [draw_grid_watermark] draws its [hb * vb] instances at points strictly
    inside the page (coordinates before rotation): none lies on the
    border. *)
Theorem grid_margin_keeps_instances_inside
  (fit_image : R -> R -> R -> R -> R -> result (R * R)) (w : Canvas)
  (o : draw.DrawingOptions) (g : draw.GridOptions) (width height : R)
  (rot : ndarray22) :
  (0 < draw.horizontal_boxes g)%Z -> (0 < draw.vertical_boxes g)%Z ->
  0 < width -> 0 < height ->
  draw.margin g = true ->
  exists points : list (R * R),
    draw.draw_grid_watermark fit_image w o g width height rot
    = (let* (image_width, image_height) :=
         match draw.image o with
         | Some img =>
             fit_image (IZR (fst (getSize img))) (IZR (snd (getSize img)))
               (width / IZR (draw.horizontal_boxes g))
               (height / IZR (draw.vertical_boxes g)) (draw.image_scale o)
         | None => Ok (0, 0)
         end in
       at_points points
         (fun x_base y_base watermark =>
            Ok (draw.draw_one_watermark watermark x_base y_base rot o
                  image_width image_height))
         w) /\
    length points
    = Z.to_nat (draw.horizontal_boxes g * draw.vertical_boxes g) /\
    Forall (strictly_inside width height) points.
Proof.
  intros Hh Hv Hw Hht Hm.
  exists (grid_points (draw.margin g) width height (draw.horizontal_boxes g)
            (draw.vertical_boxes g)).
  split; [apply draw_grid_watermark_points; lia |]. split.
  - rewrite grid_points_length by assumption. unfold grid_cells.
    rewrite Hm. reflexivity.
  - apply Forall_forall. intros p Hp. apply grid_points_In in Hp.
    destruct Hp as (i & j & Hi & Hj & ->). rewrite Hm in *.
    split; cbn [fst snd]; apply cell_coordinate_margin_inside;
      assumption.
Qed.

Lemma grid_margin_keeps_instances_inside_witness :
  exists points : list (R * R),
    draw.draw_grid_watermark utils.fit_image (new_Canvas [] 595 842)
      example.text_options (draw.mkGridOptions 3 2 true) 595 842
      example.identity_matrix
    = at_points points
        (fun x_base y_base watermark =>
           Ok (draw.draw_one_watermark watermark x_base y_base
                 example.identity_matrix example.text_options 0 0))
        (new_Canvas [] 595 842) /\
    length points = 6%nat /\
    Forall (strictly_inside 595 842) points.
Proof.
  apply (grid_margin_keeps_instances_inside utils.fit_image
           (new_Canvas [] 595 842) example.text_options
           (draw.mkGridOptions 3 2 true) 595 842 example.identity_matrix);
    cbn; try lia; try lra; reflexivity.
Defined.

(** X15: with the margin flag unset, on a page and a grid of positive
    sizes, [draw_grid_watermark] draws at the corner [(0, 0)], at no point
    with a negative coordinate, and along each axis as far as the number
    of boxes times the spacing [(hb * (width / hb), vb * (height / vb))],
    which is the opposite corner of the page up to rounding. *)
Theorem grid_without_margin_starts_at_corner
  (fit_image : R -> R -> R -> R -> R -> result (R * R)) (w : Canvas)
  (o : draw.DrawingOptions) (g : draw.GridOptions) (width height : R)
  (rot : ndarray22) :
  (0 < draw.horizontal_boxes g)%Z -> (0 < draw.vertical_boxes g)%Z ->
  0 < width -> 0 < height ->
  draw.margin g = false ->
  exists points : list (R * R),
    draw.draw_grid_watermark fit_image w o g width height rot
    = (let* (image_width, image_height) :=
         match draw.image o with
         | Some img =>
             fit_image (IZR (fst (getSize img))) (IZR (snd (getSize img)))
               (width / IZR (draw.horizontal_boxes g))
               (height / IZR (draw.vertical_boxes g)) (draw.image_scale o)
         | None => Ok (0, 0)
         end in
       at_points points
         (fun x_base y_base watermark =>
            Ok (draw.draw_one_watermark watermark x_base y_base rot o
                  image_width image_height))
         w) /\
    Forall (fun p => 0 <= fst p /\ 0 <= snd p) points /\
    In (IZR 0 * (width / IZR (draw.horizontal_boxes g)),
        IZR 0 * (height / IZR (draw.vertical_boxes g))) points /\
    IZR 0 * (width / IZR (draw.horizontal_boxes g)) = 0 /\
    IZR 0 * (height / IZR (draw.vertical_boxes g)) = 0 /\
    In (IZR (draw.horizontal_boxes g)
          * (width / IZR (draw.horizontal_boxes g)),
        IZR (draw.vertical_boxes g)
          * (height / IZR (draw.vertical_boxes g))) points.
Proof.
  intros Hh Hv Hw Hht Hm.
  exists (grid_points (draw.margin g) width height (draw.horizontal_boxes g)
            (draw.vertical_boxes g)).
  split; [apply draw_grid_watermark_points; lia |].
  rewrite Hm. split; [| split; [| split; [| split]]].
  - apply Forall_forall. intros p Hp. apply grid_points_In in Hp.
    destruct Hp as (i & j & Hi & Hj & ->).
    split; cbn [fst snd];
      eapply cell_coordinate_inside; eassumption.
  - apply grid_points_In. exists 0%Z, 0%Z.
    split; [lia |]. split; [lia |]. reflexivity.
  - ring.
  - ring.
  - apply grid_points_In.
    exists (draw.horizontal_boxes g), (draw.vertical_boxes g).
    split; [lia |]. split; [lia |]. reflexivity.
Qed.

Lemma grid_without_margin_starts_at_corner_witness :
  exists points : list (R * R),
    draw.draw_grid_watermark utils.fit_image (new_Canvas [] 595 842)
      example.text_options (draw.mkGridOptions 3 2 false) 595 842
      example.identity_matrix
    = at_points points
        (fun x_base y_base watermark =>
           Ok (draw.draw_one_watermark watermark x_base y_base
                 example.identity_matrix example.text_options 0 0))
        (new_Canvas [] 595 842) /\
    Forall (fun p => 0 <= fst p /\ 0 <= snd p) points /\
    In (IZR 0 * (595 / IZR 3), IZR 0 * (842 / IZR 2)) points /\
    IZR 0 * (595 / IZR 3) = 0 /\
    IZR 0 * (842 / IZR 2) = 0 /\
    In (IZR 3 * (595 / IZR 3), IZR 2 * (842 / IZR 2)) points.
Proof.
  apply (grid_without_margin_starts_at_corner utils.fit_image
           (new_Canvas [] 595 842) example.text_options
           (draw.mkGridOptions 3 2 false) 595 842 example.identity_matrix);
    cbn; try lia; try lra; reflexivity.
Defined.

(** ** The two grid implementations *)

(** The loop body of [create_watermark_pdf] is [draw_one_watermark] after
    the image has been fitted. *)
Lemma draw_at_as_draw_one_watermark (uo : utils.DrawingOptions)
  (hbs vbs : R) (rot : ndarray22) (px py : R) (w : Canvas) :
  utils.draw_at uo hbs vbs rot px py w
  = let* (image_width, image_height) :=
      match utils.image uo with
      | Some img =>
          utils.fit_image (IZR (fst (getSize img))) (IZR (snd (getSize img)))
            hbs vbs (utils.image_scale uo)
      | None => Ok (0, 0)
      end in
    Ok (draw.draw_one_watermark w px py rot (drawing_options_of uo)
          image_width image_height).
Proof.
  unfold utils.draw_at, draw.draw_one_watermark, drawing_options_of.
  cbn [draw.text draw.image].
  destruct (utils.change_base px py rot) as [x' y'].
  destruct (utils.image uo) as [img |].
  - destruct (getSize img) as [pw ph]. cbn [fst snd].
    destruct (utils.fit_image (IZR pw) (IZR ph) hbs vbs
                (utils.image_scale uo)) as [[iw ih] | e]; reflexivity.
  - reflexivity.
Qed.

(** A computation that every step of a loop over at least one point
    starts with can be done once, before the loop. *)
Lemma at_points_hoist {D : Type} (first : R * R) (points : list (R * R))
  (once : result D) (draw : D -> R -> R -> Canvas -> Canvas) (w : Canvas) :
  at_points (first :: points)
    (fun px py w0 => let* d := once in Ok (draw d px py w0)) w
  = let* d := once in
    at_points (first :: points) (fun px py w0 => Ok (draw d px py w0)) w.
Proof.
  destruct once as [d | e]; reflexivity.
Qed.

Lemma grid_points_cons (margin : bool) (width height : R) (hb vb : Z) :
  (0 < hb)%Z -> (0 < vb)%Z ->
  exists first points,
    grid_points margin width height hb vb = first :: points.
Proof.
  intros Hh Hv.
  pose proof (grid_points_length margin width height hb vb Hh Hv) as L.
  destruct (grid_points margin width height hb vb) as [| first points].
  - exfalso. unfold grid_cells in L. cbn in L. destruct margin; nia.
  - exists first, points. reflexivity.
Qed.

Lemma utils_chinese_font_not_chinese (zh : list str)
  (uo : utils.DrawingOptions) :
  chinese_text (utils.text uo) = false -> utils.chinese_font zh uo = uo.
Proof.
  unfold chinese_text, utils.chinese_font.
  destruct (utils.text uo) as [t |]; [| reflexivity].
  intros E. replace (utils.is_chinese t) with false
    by (symmetry; transitivity (draw.is_chinese t);
        [apply is_chinese_same | exact E]).
  reflexivity.
Qed.

Lemma draw_chinese_font_not_chinese (plat : str) (zh : list str)
  (o : draw.DrawingOptions) :
  chinese_text (draw.text o) = false -> draw.chinese_font plat zh o = o.
Proof.
  unfold chinese_text, draw.chinese_font.
  destruct (draw.text o) as [t |]; [| reflexivity].
  intros ->. reflexivity.
Qed.

Lemma create_watermark_pdf_as_draw_watermarks
  (Alignments_value : draw.Alignments -> str)
  (stringWidth : str -> str -> R -> R) (plat : str) (zh : list str)
  (name : str) (width height : R) (uo : utils.DrawingOptions) :
  (0 < utils.horizontal_boxes uo)%Z -> (0 < utils.vertical_boxes uo)%Z ->
  chinese_text (utils.text uo) = false ->
  utils.create_watermark_pdf zh name width height uo
  = draw.draw_watermarks Alignments_value stringWidth utils.fit_image
      plat zh name width height (drawing_options_of uo)
      (draw.Grid (grid_options_of uo)).
Proof.
  intros Hh Hv Ht.
  rewrite create_watermark_pdf_points by lia.
  unfold draw.draw_watermarks.
  rewrite (draw_chinese_font_not_chinese plat zh (drawing_options_of uo))
    by exact Ht.
  rewrite draw_grid_watermark_points by (cbn; lia).
  unfold utils_canvas_before_grid.
  rewrite (utils_chinese_font_not_chinese zh uo) by exact Ht.
  cbn [drawing_options_of grid_options_of draw.text draw.image
       draw.text_font draw.text_size draw.text_color draw.opacity draw.angle
       draw.image_scale draw.horizontal_boxes draw.vertical_boxes
       draw.margin].
  cbv zeta.
  destruct (grid_points_cons (utils.margin uo) width height
              (utils.horizontal_boxes uo) (utils.vertical_boxes uo) Hh Hv)
    as (first & points & ->).
  f_equal.
  transitivity
    (at_points (first :: points)
       (fun px py w0 =>
          let* d :=
            match utils.image uo with
            | Some img =>
                utils.fit_image (IZR (fst (getSize img)))
                  (IZR (snd (getSize img)))
                  (width / IZR (utils.horizontal_boxes uo))
                  (height / IZR (utils.vertical_boxes uo))
                  (utils.image_scale uo)
            | None => Ok (0, 0)
            end in
          Ok (draw.draw_one_watermark w0 px py
                (array22 (cos (utils.angle uo * PI / 180))
                   (- sin (utils.angle uo * PI / 180))
                   (sin (utils.angle uo * PI / 180))
                   (cos (utils.angle uo * PI / 180)))
                (drawing_options_of uo) (fst d) (snd d)))
       (emit
          (emit
             (emit (new_Canvas name width height)
                (setFillColor (utils.text_color uo) (utils.opacity uo)))
             (setFont (utils.text_font uo) (utils.text_size uo)))
          (rotate (utils.angle uo)))).
  - unfold at_points. apply for_each_ext. intros p w0.
    rewrite draw_at_as_draw_one_watermark.
    destruct (match utils.image uo with
              | Some img => _
              | None => _
              end) as [[iw ih] | e]; reflexivity.
  - rewrite (at_points_hoist first points _
               (fun d px py w0 =>
                  draw.draw_one_watermark w0 px py _ (drawing_options_of uo)
                    (fst d) (snd d))).
    destruct (match utils.image uo with
              | Some img => _
              | None => _
              end) as [[iw ih] | e]; reflexivity.
Qed.

(** X16: on a grid of positive box counts and a text without Chinese
    characters (or no text), [create_watermark_pdf] of [app/utils.py] and
    [draw_watermarks] of [app/draw.py] on a grid layout, with the fitting
    arithmetic of [app/utils.py] for [fit_image], return the same canvas or
    raise the same exception. *)
Theorem create_watermark_pdf_agrees_with_draw_watermarks
  (Alignments_value : draw.Alignments -> str)
  (stringWidth : str -> str -> R -> R) (plat : str) (zh : list str)
  (name : str) (width height : R) (uo : utils.DrawingOptions) :
  (0 < utils.horizontal_boxes uo)%Z -> (0 < utils.vertical_boxes uo)%Z ->
  chinese_text (utils.text uo) = false ->
  utils.create_watermark_pdf zh name width height uo
  = draw.draw_watermarks Alignments_value stringWidth utils.fit_image
      plat zh name width height
      (draw.mkDrawingOptions (utils.text uo) (utils.image uo)
         (utils.text_font uo) (utils.text_size uo) (utils.text_color uo)
         (utils.opacity uo) (utils.angle uo) (utils.image_scale uo))
      (draw.Grid
         (draw.mkGridOptions (utils.horizontal_boxes uo)
            (utils.vertical_boxes uo) (utils.margin uo))).
Proof.
  apply create_watermark_pdf_as_draw_watermarks.
Qed.

Lemma create_watermark_pdf_agrees_with_draw_watermarks_witness :
  utils.create_watermark_pdf example.get_all_zh_font [] 595 842
    (example.utils_text_options 3 2 true)
  = draw.draw_watermarks example.Alignments_value example.stringWidth
      utils.fit_image example.platform_system example.get_all_zh_font []
      595 842 example.text_options
      (draw.Grid (draw.mkGridOptions 3 2 true)).
Proof.
  apply (create_watermark_pdf_agrees_with_draw_watermarks
           example.Alignments_value example.stringWidth
           example.platform_system example.get_all_zh_font [] 595 842
           (example.utils_text_options 3 2 true)); cbn; try lia; reflexivity.
Defined.

(** X17: under the same conditions the two [add_watermark_to_pdf], of
    [app/utils.py] and of [app/handler.py] on a grid layout, write the same
    pages or raise the same exception. *)
Theorem add_watermark_to_pdf_versions_agree
  (Alignments_value : draw.Alignments -> str)
  (stringWidth : str -> str -> R -> R) (plat : str) (zh : list str)
  (Page : Type) (mediaBox : Page -> R * R)
  (mergePage : Page -> Page -> Page)
  (PdfFileReader_pages : Canvas -> list Page) (temporary_file_name : str)
  (input : list Page) (uo : utils.DrawingOptions) :
  (0 < utils.horizontal_boxes uo)%Z -> (0 < utils.vertical_boxes uo)%Z ->
  chinese_text (utils.text uo) = false ->
  utils.add_watermark_to_pdf zh Page mediaBox mergePage PdfFileReader_pages
    temporary_file_name input uo
  = handler.add_watermark_to_pdf Alignments_value stringWidth
      utils.fit_image plat zh Page mediaBox mergePage PdfFileReader_pages
      temporary_file_name input
      (draw.mkDrawingOptions (utils.text uo) (utils.image uo)
         (utils.text_font uo) (utils.text_size uo) (utils.text_color uo)
         (utils.opacity uo) (utils.angle uo) (utils.image_scale uo))
      (draw.Grid
         (draw.mkGridOptions (utils.horizontal_boxes uo)
            (utils.vertical_boxes uo) (utils.margin uo))).
Proof.
  intros Hh Hv Ht.
  unfold utils.add_watermark_to_pdf, handler.add_watermark_to_pdf.
  cbv zeta. destruct (getitem input 0) as [first_page | e]; [| reflexivity].
  cbv beta iota delta [bind].
  destruct (mediaBox first_page) as [page_width page_height].
  rewrite (create_watermark_pdf_as_draw_watermarks Alignments_value
             stringWidth plat zh temporary_file_name page_width page_height
             uo Hh Hv Ht).
  reflexivity.
Qed.

Lemma add_watermark_to_pdf_versions_agree_witness :
  utils.add_watermark_to_pdf example.get_all_zh_font example.Page
    example.mediaBox example.mergePage example.PdfFileReader_pages
    example.temporary_file_name [example.page1; example.page2]
    (example.utils_text_options 3 2 true)
  = handler.add_watermark_to_pdf example.Alignments_value
      example.stringWidth utils.fit_image example.platform_system
      example.get_all_zh_font example.Page example.mediaBox
      example.mergePage example.PdfFileReader_pages
      example.temporary_file_name [example.page1; example.page2]
      example.text_options (draw.Grid (draw.mkGridOptions 3 2 true)).
Proof.
  apply (add_watermark_to_pdf_versions_agree example.Alignments_value
           example.stringWidth example.platform_system
           example.get_all_zh_font example.Page example.mediaBox
           example.mergePage example.PdfFileReader_pages
           example.temporary_file_name [example.page1; example.page2]
           (example.utils_text_options 3 2 true)); cbn; try lia; reflexivity.
Defined.

(** ** What drawing does to the canvas *)

Lemma extends_by_draws_refl (c : Canvas) : extends_by_draws c c.
Proof.
  repeat split. exists []. split; [symmetry; apply app_nil_r | reflexivity].
Qed.

Lemma extends_by_draws_trans (a b c : Canvas) :
  extends_by_draws a b -> extends_by_draws b c -> extends_by_draws a c.
Proof.
  intros (Fa & Pa & ops1 & Ca & Da) (Fb & Pb & ops2 & Cb & Db).
  split; [congruence |]. split; [congruence |].
  exists (ops1 ++ ops2). split.
  - rewrite Cb, Ca, app_assoc. reflexivity.
  - rewrite forallb_app, Da, Db. reflexivity.
Qed.

Lemma extends_by_draws_emit (c : Canvas) (op : CanvasOp) :
  is_draw op = true -> extends_by_draws c (emit c op).
Proof.
  intros H. repeat split. exists [op]. split; [reflexivity |].
  cbn. rewrite H. reflexivity.
Qed.

Lemma draw_one_watermark_extends (w : Canvas) (px py : R) (rot : ndarray22)
  (o : draw.DrawingOptions) (iw ih : R) :
  extends_by_draws w (draw.draw_one_watermark w px py rot o iw ih).
Proof.
  unfold draw.draw_one_watermark, utils.draw_centered_image.
  destruct (utils.change_base px py rot) as [x' y'].
  destruct (draw.text o) as [t |], (draw.image o) as [img |].
  - eapply extends_by_draws_trans; apply extends_by_draws_emit; reflexivity.
  - apply extends_by_draws_emit. reflexivity.
  - apply extends_by_draws_emit. reflexivity.
  - apply extends_by_draws_refl.
Qed.

Lemma at_points_extends (points : list (R * R))
  (draw : R -> R -> Canvas -> result Canvas) (w w' : Canvas) :
  (forall px py w0 w1, draw px py w0 = Ok w1 -> extends_by_draws w0 w1) ->
  at_points points draw w = Ok w' -> extends_by_draws w w'.
Proof.
  intros Hstep. unfold at_points. revert w.
  induction points as [| p points IH]; intros w E; cbn in E.
  - injection E as <-. apply extends_by_draws_refl.
  - destruct (draw (fst p) (snd p) w) as [w1 | e] eqn:E1; cbn in E.
    + eapply extends_by_draws_trans.
      * eapply Hstep. exact E1.
      * apply IH. exact E.
    + discriminate E.
Qed.

(** A successful [draw_insert_watermark] is one [draw_one_watermark]. *)
Lemma draw_insert_watermark_ok_shape
  (Alignments_value : draw.Alignments -> str)
  (stringWidth : str -> str -> R -> R)
  (fit_image : R -> R -> R -> R -> R -> result (R * R))
  (w : Canvas) (o : draw.DrawingOptions) (so : draw.InsertOptions)
  (width height : R) (rot : ndarray22) (w' : Canvas) :
  draw.draw_insert_watermark Alignments_value stringWidth fit_image
    w o so width height rot = Ok w' ->
  exists ax ay iw ih : R,
    w' = draw.draw_one_watermark w ax ay rot o iw ih.
Proof.
  unfold draw.draw_insert_watermark. cbv beta iota zeta.
  destruct (draw.text o) as [t |].
  - cbn.
    destruct (str_eqb _ (Alignments_value draw.LEFT));
      [| destruct (str_eqb _ (Alignments_value draw.RIGHT));
         [| destruct (str_eqb _ (Alignments_value draw.CENTER))]];
      cbn; intros E; try discriminate E; injection E as <-;
      do 4 eexists; reflexivity.
  - destruct (draw.image o) as [img |]; [| intros E; discriminate E].
    destruct (getSize img) as [pw ph].
    destruct (str_eqb _ (Alignments_value draw.LEFT)) eqn:EL;
      [| destruct (str_eqb _ (Alignments_value draw.RIGHT)) eqn:ER;
         [| destruct (str_eqb _ (Alignments_value draw.CENTER)) eqn:EC]];
      cbn; try (intros E; discriminate E);
      destruct (fit_image _ _ _ _ _) as [[iw ih] | e]; cbn;
      rewrite ?EL, ?ER, ?EC; cbn;
      intros E; try discriminate E; injection E as <-;
      do 4 eexists; reflexivity.
Qed.

(** X18: when [draw_insert_watermark] returns, it has drawn exactly one
    instance, at the end of the canvas: the operations that were there, the
    file name and the page size are as before. *)
Theorem draw_insert_watermark_draws_one_instance
  (Alignments_value : draw.Alignments -> str)
  (stringWidth : str -> str -> R -> R)
  (fit_image : R -> R -> R -> R -> R -> result (R * R))
  (w : Canvas) (o : draw.DrawingOptions) (so : draw.InsertOptions)
  (width height : R) (rot : ndarray22) (w' : Canvas) :
  draw.draw_insert_watermark Alignments_value stringWidth fit_image
    w o so width height rot = Ok w' ->
  drew_instances 1 (draw.text o) (draw.image o) w w' /\
  extends_by_draws w w'.
Proof.
  intros E.
  destruct (draw_insert_watermark_ok_shape _ _ _ _ _ _ _ _ _ _ E)
    as (ax & ay & iw & ih & ->).
  split.
  - unfold drew_instances.
    destruct (draw_one_watermark_counts w ax ay rot o iw ih) as [-> ->]. lia.
  - apply draw_one_watermark_extends.
Qed.

Lemma draw_insert_watermark_draws_one_instance_witness :
  exists w',
    draw.draw_insert_watermark example.Alignments_value example.stringWidth
      utils.fit_image (new_Canvas [] 595 842) example.text_options
      (draw.mkInsertOptions (1 / 2) (1 / 4) (str_of_string "center"))
      595 842 example.identity_matrix = Ok w' /\
    drew_instances 1 (Some (str_of_string "DRAFT")) None
      (new_Canvas [] 595 842) w' /\
    extends_by_draws (new_Canvas [] 595 842) w'.
Proof.
  eexists. split; [reflexivity |].
  apply (draw_insert_watermark_draws_one_instance example.Alignments_value
           example.stringWidth utils.fit_image (new_Canvas [] 595 842)
           example.text_options
           (draw.mkInsertOptions (1 / 2) (1 / 4) (str_of_string "center"))
           595 842 example.identity_matrix).
  reflexivity.
Defined.

Lemma draw_chinese_font_fields (plat : str) (zh : list str)
  (o : draw.DrawingOptions) :
  draw.text (draw.chinese_font plat zh o) = draw.text o /\
  draw.image (draw.chinese_font plat zh o) = draw.image o /\
  draw.text_size (draw.chinese_font plat zh o) = draw.text_size o /\
  draw.text_color (draw.chinese_font plat zh o) = draw.text_color o /\
  draw.opacity (draw.chinese_font plat zh o) = draw.opacity o /\
  draw.angle (draw.chinese_font plat zh o) = draw.angle o /\
  draw.image_scale (draw.chinese_font plat zh o) = draw.image_scale o.
Proof.
  unfold draw.chinese_font.
  destruct (draw.text o) as [t |] eqn:Et; [| rewrite Et; repeat split].
  destruct (draw.is_chinese t); [| rewrite Et; repeat split].
  destruct (0 <? length _)%nat; [| rewrite Et; repeat split].
  destruct (negb _); [cbn | ]; rewrite Et; repeat split.
Qed.

(** X19: the canvas [draw_watermarks] returns is for the given file and
    page size and holds, in this order: the fill colour with the opacity,
    the font (as the Chinese font step leaves it) with the size, the
    rotation by the angle, then drawing operations only, then [save]:
    colour, font and rotation are set once, before anything is drawn. *)
Theorem draw_watermarks_canvas
  (Alignments_value : draw.Alignments -> str)
  (stringWidth : str -> str -> R -> R)
  (fit_image : R -> R -> R -> R -> R -> result (R * R))
  (plat : str) (zh : list str) (name : str) (width height : R)
  (o : draw.DrawingOptions) (so : draw.SpecificOptions) (c : Canvas) :
  draw.draw_watermarks Alignments_value stringWidth fit_image plat zh
    name width height o so = Ok c ->
  file_name c = name /\
  pagesize c = (width, height) /\
  exists ops : list CanvasOp,
    code c
    = [setFillColor (draw.text_color o) (draw.opacity o);
       setFont (draw.text_font (draw.chinese_font plat zh o))
         (draw.text_size o);
       rotate (draw.angle o)]
      ++ ops ++ [save] /\
    forallb is_draw ops = true.
Proof.
  unfold draw.draw_watermarks. cbv zeta.
  destruct (draw_chinese_font_fields plat zh o)
    as (_ & _ & -> & -> & -> & -> & _).
  set (o' := draw.chinese_font plat zh o).
  set (c0 := emit (emit (emit (new_Canvas name width height) _) _) _).
  intros E.
  assert (X : exists c1, extends_by_draws c0 c1 /\ c = emit c1 save).
  { destruct so as [io | g |]; cbv beta iota in E.
    - destruct (draw.draw_insert_watermark _ _ _ c0 o' io width height _)
        as [c1 | e] eqn:E1; cbv beta iota delta [bind] in E;
        [| discriminate E].
      injection E as <-. exists c1. split; [| reflexivity].
      destruct (draw_insert_watermark_ok_shape _ _ _ _ _ _ _ _ _ _ E1)
        as (ax & ay & iw & ih & ->).
      apply draw_one_watermark_extends.
    - destruct (draw.draw_grid_watermark _ c0 o' g width height _)
        as [c1 | e] eqn:E1; cbv beta iota delta [bind] in E;
        [| discriminate E].
      injection E as <-. exists c1. split; [| reflexivity].
      destruct (Z.eq_dec (draw.horizontal_boxes g) 0) as [Hh | Hh].
      { rewrite draw_grid_watermark_zero_boxes in E1 by (left; exact Hh).
        discriminate E1. }
      destruct (Z.eq_dec (draw.vertical_boxes g) 0) as [Hv | Hv].
      { rewrite draw_grid_watermark_zero_boxes in E1 by (right; exact Hv).
        discriminate E1. }
      rewrite draw_grid_watermark_points in E1 by assumption.
      destruct (match draw.image o' with
                | Some img => _
                | None => _
                end) as [[iw ih] | e]; [| discriminate E1].
      cbv beta iota delta [bind] in E1.
      eapply at_points_extends; [| exact E1].
      intros px py w0 w1 E2. injection E2 as <-.
      apply draw_one_watermark_extends.
    - discriminate E. }
  destruct X as (c1 & (F & P & ops & C & D) & ->).
  split; [exact F |]. split; [exact P |].
  exists ops. split; [| exact D].
  cbn [code emit]. rewrite C. unfold c0. cbn. reflexivity.
Qed.

Lemma draw_watermarks_canvas_witness :
  exists c,
    draw.draw_watermarks example.Alignments_value example.stringWidth
      utils.fit_image example.platform_system example.get_all_zh_font
      example.temporary_file_name 595 842 example.text_options
      (draw.Insert
         (draw.mkInsertOptions (1 / 2) (1 / 4) (str_of_string "center")))
    = Ok c /\
    file_name c = example.temporary_file_name /\
    pagesize c = (595, 842) /\
    exists ops : list CanvasOp,
      code c
      = [setFillColor example.black (1 / 2);
         setFont example.helvetica 12; rotate 45] ++ ops ++ [save] /\
      forallb is_draw ops = true.
Proof.
  eexists. split; [reflexivity |].
  apply (draw_watermarks_canvas example.Alignments_value
           example.stringWidth utils.fit_image example.platform_system
           example.get_all_zh_font example.temporary_file_name 595 842
           example.text_options
           (draw.Insert
              (draw.mkInsertOptions (1 / 2) (1 / 4)
                 (str_of_string "center")))).
  reflexivity.
Defined.

(** ** Inserts, continued *)

(** X20: an insert with both a text and an image takes its width from the
    text and never fits the image: under a valid alignment it draws the
    string and then the image with width and height zero, at the same
    point, whatever [fit_image] is. *)
Theorem insert_with_text_draws_image_at_size_zero
  (Alignments_value : draw.Alignments -> str)
  (stringWidth : str -> str -> R -> R)
  (fit_image : R -> R -> R -> R -> R -> result (R * R))
  (w : Canvas) (o : draw.DrawingOptions) (so : draw.InsertOptions)
  (width height : R) (rot : ndarray22) (a : draw.Alignments)
  (t : str) (img : ImageReader) :
  (forall a b, Alignments_value a = Alignments_value b -> a = b) ->
  draw.horizontal_alignment so = Alignments_value a ->
  draw.text o = Some t ->
  draw.image o = Some img ->
  let anchor :=
    utils.change_base
      (draw.x so * width
       + alignment_offset a
           (stringWidth t (draw.text_font o) (draw.text_size o)))
      (draw.y so * height) rot in
  draw.draw_insert_watermark Alignments_value stringWidth fit_image
    w o so width height rot
  = Ok (emit
          (emit w (drawCentredString (fst anchor) (snd anchor) t))
          (drawImage img (fst anchor - 0 / 2) (snd anchor - 0 / 2) 0 0)).
Proof.
  intros Hinj Ha Et Ei anchor.
  rewrite (draw_insert_watermark_aligned Alignments_value stringWidth
             fit_image Hinj w o so width height rot a Ha).
  rewrite Et. cbv beta iota delta [bind]. f_equal.
  unfold draw.draw_one_watermark, utils.draw_centered_image.
  rewrite Et, Ei. fold anchor. destruct anchor as [x' y']. reflexivity.
Qed.

Lemma insert_with_text_draws_image_at_size_zero_witness :
  exists px py : R,
    draw.draw_insert_watermark example.Alignments_value example.stringWidth
      utils.fit_image (new_Canvas [] 595 842)
      (draw.mkDrawingOptions (Some (str_of_string "DRAFT"))
         (Some example.logo) example.helvetica 12 example.black (1 / 2) 45 1)
      (draw.mkInsertOptions (1 / 2) (1 / 4) (str_of_string "left")) 595 842
      example.identity_matrix
    = Ok (emit
            (emit (new_Canvas [] 595 842)
               (drawCentredString px py (str_of_string "DRAFT")))
            (drawImage example.logo (px - 0 / 2) (py - 0 / 2) 0 0)).
Proof.
  eexists. eexists.
  exact (insert_with_text_draws_image_at_size_zero example.Alignments_value
           example.stringWidth utils.fit_image (new_Canvas [] 595 842)
           (draw.mkDrawingOptions (Some (str_of_string "DRAFT"))
              (Some example.logo) example.helvetica 12 example.black (1 / 2)
              45 1)
           (draw.mkInsertOptions (1 / 2) (1 / 4) (str_of_string "left"))
           595 842 example.identity_matrix draw.LEFT (str_of_string "DRAFT")
           example.logo Alignments_value_inj eq_refl eq_refl eq_refl).
Defined.

(** X21: an inserted image (no text) of positive pixel size, placed
    strictly inside a page of positive size with a scale factor in (0, 1]
    and fitted by the arithmetic of [app/utils.py], is drawn as a rectangle
    that, before rotation, crosses neither the left nor the bottom edge of
    the page, under each of the three alignments. *)
Theorem inserted_image_keeps_left_and_bottom
  (Alignments_value : draw.Alignments -> str)
  (stringWidth : str -> str -> R -> R)
  (w : Canvas) (o : draw.DrawingOptions) (so : draw.InsertOptions)
  (width height : R) (rot : ndarray22) (a : draw.Alignments)
  (img : ImageReader) :
  (forall a b, Alignments_value a = Alignments_value b -> a = b) ->
  draw.horizontal_alignment so = Alignments_value a ->
  draw.text o = None ->
  draw.image o = Some img ->
  (0 < fst (getSize img))%Z -> (0 < snd (getSize img))%Z ->
  0 < width -> 0 < height ->
  0 < draw.x so < 1 -> 0 < draw.y so < 1 ->
  0 < draw.image_scale o <= 1 ->
  exists centre_x centre_y image_width image_height : R,
    draw.draw_insert_watermark Alignments_value stringWidth utils.fit_image
      w o so width height rot
    = Ok (draw.draw_one_watermark w centre_x centre_y rot o
            image_width image_height) /\
    0 <= centre_x - image_width / 2 /\
    0 <= centre_y - image_height / 2.
Proof.
  intros Hinj Ha Et Ei Hpw Hph Hw Hh Hx Hy Hs.
  apply IZR_lt in Hpw, Hph.
  assert (Hmw : 0 < insert_max_width a (draw.x so) width).
  { destruct a; cbn; [nra | nra | apply Rmin_pos; nra]. }
  assert (Hmh : 0 < insert_max_height (draw.y so) height).
  { unfold insert_max_height. apply Rmin_pos; nra. }
  destruct (fit_box_factor _ _ _ _ Hpw Hph Hmw Hmh)
    as (k & [Hk0 Hk1] & Hbox & Hfw & Hfh).
  rewrite (draw_insert_watermark_aligned Alignments_value stringWidth
             utils.fit_image Hinj w o so width height rot a Ha).
  rewrite Et, Ei. unfold utils.fit_image at 1. rewrite Hbox.
  cbv beta iota zeta delta [bind].
  set (iw := k * IZR (fst (getSize img)) * draw.image_scale o) in *.
  set (ih := k * IZR (snd (getSize img)) * draw.image_scale o) in *.
  exists (draw.x so * width + alignment_offset a iw), (draw.y so * height),
    iw, ih.
  split; [reflexivity |].
  assert (Hiw0 : 0 < iw) by (unfold iw; apply Rmult_lt_0_compat; nra).
  assert (Hih0 : 0 < ih) by (unfold ih; apply Rmult_lt_0_compat; nra).
  assert (Hiw : iw <= insert_max_width a (draw.x so) width)
    by (unfold iw; nra).
  assert (Hih : ih <= insert_max_height (draw.y so) height)
    by (unfold ih; nra).
  assert (Hih2 : ih <= 2 * draw.y so * height).
  { eapply Rle_trans; [exact Hih |]. apply Rmin_l. }
  destruct a; cbn [alignment_offset insert_max_width] in *.
  - split; nra.
  - split; nra.
  - assert (H2 : iw <= 2 * draw.x so * width)
      by (eapply Rle_trans; [exact Hiw |]; apply Rmin_r).
    split; nra.
Qed.

Lemma inserted_image_keeps_left_and_bottom_witness :
  exists centre_x centre_y image_width image_height : R,
    draw.draw_insert_watermark example.Alignments_value example.stringWidth
      utils.fit_image (new_Canvas [] 595 842) example.image_options
      (draw.mkInsertOptions (1 / 2) (1 / 4) (str_of_string "right"))
      595 842 example.identity_matrix
    = Ok (draw.draw_one_watermark (new_Canvas [] 595 842) centre_x centre_y
            example.identity_matrix example.image_options
            image_width image_height) /\
    0 <= centre_x - image_width / 2 /\
    0 <= centre_y - image_height / 2.
Proof.
  apply (inserted_image_keeps_left_and_bottom example.Alignments_value
           example.stringWidth (new_Canvas [] 595 842) example.image_options
           (draw.mkInsertOptions (1 / 2) (1 / 4) (str_of_string "right"))
           595 842 example.identity_matrix draw.RIGHT example.logo
           Alignments_value_inj eq_refl eq_refl eq_refl);
    cbn; try lia; lra.
Defined.

(** X22: which exception an insert raises when its alignment is the value
    of none of LEFT, RIGHT and CENTER: with neither text nor image it is
    the [ValueError] for the missing watermark, which comes first; with a
    text or an image it is the [ValueError] for the alignment, carrying the
    offending value. *)
Theorem draw_insert_watermark_invalid_alignment
  (Alignments_value : draw.Alignments -> str)
  (stringWidth : str -> str -> R -> R)
  (fit_image : R -> R -> R -> R -> R -> result (R * R))
  (w : Canvas) (o : draw.DrawingOptions) (so : draw.InsertOptions)
  (width height : R) (rot : ndarray22) :
  (forall a, draw.horizontal_alignment so <> Alignments_value a) ->
  draw.draw_insert_watermark Alignments_value stringWidth fit_image
    w o so width height rot
  = Raise (if match draw.text o, draw.image o with
              | None, None => true
              | _, _ => false
              end
           then ValueError_no_watermark
           else ValueError_invalid_alignment (draw.horizontal_alignment so)).
Proof.
  intros N.
  rewrite (draw_insert_watermark_invalid Alignments_value stringWidth
             fit_image w o so width height rot N).
  destruct (draw.text o), (draw.image o); reflexivity.
Qed.

Lemma draw_insert_watermark_invalid_alignment_witness :
  draw.draw_insert_watermark example.Alignments_value example.stringWidth
    utils.fit_image (new_Canvas [] 595 842) example.image_options
    (draw.mkInsertOptions (1 / 2) (1 / 4) (str_of_string "top")) 595 842
    example.identity_matrix
  = Raise (ValueError_invalid_alignment (str_of_string "top")).
Proof.
  apply (draw_insert_watermark_invalid_alignment example.Alignments_value
           example.stringWidth utils.fit_image (new_Canvas [] 595 842)
           example.image_options
           (draw.mkInsertOptions (1 / 2) (1 / 4) (str_of_string "top"))
           595 842 example.identity_matrix).
  intros a E. destruct a; discriminate E.
Defined.

(** ** The font of a Chinese text *)

Lemma existsb_str_eqb (f : str) (fonts : list str) :
  existsb (str_eqb f) fonts = true <-> In f fonts.
Proof.
  rewrite existsb_exists. split.
  - intros (g & Hg & E). apply str_eqb_eq in E. subst g. exact Hg.
  - intros H. exists f. split; [exact H | apply str_eqb_refl].
Qed.

Lemma pick_zh_font_In (zh rest : list str) (font : str) :
  zh <> [] ->
  (forall f, In f rest -> In f zh) ->
  In font zh \/ rest <> [] ->
  In (draw.pick_zh_font zh rest font) zh.
Proof.
  intros Hzh. revert font.
  induction rest as [| f rest IH]; intros font Hsub Hfont; cbn.
  - destruct Hfont as [H | H]; [exact H | contradiction].
  - destruct (draw.find f _ >? 0)%Z.
    + apply Hsub. left. reflexivity.
    + apply IH.
      * intros g Hg. apply Hsub. right. exact Hg.
      * left. destruct zh as [| g zh']; [contradiction |]. left. reflexivity.
Qed.

(** The list of fonts the font step of [draw_watermarks] works with. *)
Lemma draw_chinese_font_cases (plat : str) (zh : list str)
  (o : draw.DrawingOptions) :
  let fonts :=
    if negb (str_eqb (str_of_string "Windows") plat) then zh
    else map (fun ch => [ch]) (str_of_string "Microsoft YaHei") in
  draw.chinese_font plat zh o
  = if chinese_text (draw.text o)
       && negb (match fonts with [] => true | _ => false end)
       && negb (existsb (str_eqb (draw.text_font o)) fonts)
    then draw.set_text_font o
           (draw.pick_zh_font fonts fonts (draw.text_font o))
    else o.
Proof.
  intros fonts. unfold draw.chinese_font, chinese_text.
  destruct (draw.text o) as [t |]; [| reflexivity].
  destruct (draw.is_chinese t); [| reflexivity].
  fold fonts. cbn [andb].
  destruct fonts as [| f fonts']; [reflexivity |].
  cbn [length Nat.ltb Nat.leb negb andb].
  destruct (negb (existsb _ _)); reflexivity.
Qed.

Lemma draw_chinese_font_idempotent (plat : str) (zh : list str)
  (o : draw.DrawingOptions) :
  draw.chinese_font plat zh (draw.chinese_font plat zh o)
  = draw.chinese_font plat zh o.
Proof.
  rewrite (draw_chinese_font_cases plat zh o). cbv zeta.
  set (fonts := if negb (str_eqb (str_of_string "Windows") plat) then zh
                else map (fun ch => [ch]) (str_of_string "Microsoft YaHei")).
  destruct (chinese_text (draw.text o)
            && negb (match fonts with [] => true | _ => false end)
            && negb (existsb (str_eqb (draw.text_font o)) fonts)) eqn:E.
  - rewrite draw_chinese_font_cases. cbv zeta. fold fonts.
    cbn [draw.set_text_font draw.text draw.text_font].
    apply andb_true_iff in E. destruct E as [E _].
    apply andb_true_iff in E. destruct E as [_ E].
    assert (Hne : fonts <> []) by (destruct fonts; [discriminate E | discriminate]).
    assert (Hin : In (draw.pick_zh_font fonts fonts (draw.text_font o)) fonts).
    { apply pick_zh_font_In; [exact Hne | auto |]. right. exact Hne. }
    apply existsb_str_eqb in Hin. rewrite Hin.
    rewrite andb_false_r. reflexivity.
  - rewrite draw_chinese_font_cases. cbv zeta. fold fonts. rewrite E.
    reflexivity.
Qed.

Lemma utils_chinese_font_idempotent (zh : list str)
  (uo : utils.DrawingOptions) :
  utils.chinese_font zh (utils.chinese_font zh uo) = utils.chinese_font zh uo.
Proof.
  unfold utils.chinese_font at 2.
  destruct (utils.text uo) as [t |] eqn:Et;
    [| unfold utils.chinese_font; rewrite Et; reflexivity].
  destruct (utils.is_chinese t) eqn:Ec;
    [| unfold utils.chinese_font; rewrite Et, Ec; reflexivity].
  destruct zh as [| first zh'];
    [unfold utils.chinese_font; rewrite Et, Ec; reflexivity |].
  cbv zeta. unfold utils.chinese_font.
  cbn [utils.set_text_font utils.text utils.text_font]. rewrite Et, Ec.
  cbv zeta.
  destruct (negb (existsb (str_eqb (utils.text_font uo)) (first :: zh')))
    eqn:En.
  - assert (H : existsb (str_eqb first) (first :: zh') = true)
      by (apply existsb_str_eqb; left; reflexivity).
    rewrite H. reflexivity.
  - apply negb_false_iff in En. rewrite En. reflexivity.
Qed.

(** X23: when the text has Chinese characters and the machine has fonts
    for them, the font the options end up with is one of these fonts: the
    font asked for if it is one, a substitute otherwise (in
    [draw_watermarks] off Windows, and in [create_watermark_pdf]). *)
Theorem chinese_font_is_installed (plat : str) (zh : list str)
  (o : draw.DrawingOptions) (uo : utils.DrawingOptions) :
  zh <> [] ->
  plat <> str_of_string "Windows" ->
  chinese_text (draw.text o) = true ->
  chinese_text (utils.text uo) = true ->
  In (draw.text_font (draw.chinese_font plat zh o)) zh /\
  In (utils.text_font (utils.chinese_font zh uo)) zh /\
  (In (draw.text_font o) zh -> draw.chinese_font plat zh o = o) /\
  (In (utils.text_font uo) zh -> utils.chinese_font zh uo = uo).
Proof.
  intros Hzh Hplat Ho Huo.
  assert (Hw : negb (str_eqb (str_of_string "Windows") plat) = true).
  { apply negb_true_iff. apply str_eqb_neq. congruence. }
  pose proof (draw_chinese_font_cases plat zh o) as D. cbv zeta in D.
  rewrite Hw, Ho in D.
  replace (negb (match zh with [] => true | _ => false end)) with true in D
    by (destruct zh; [contradiction | reflexivity]).
  cbn [andb] in D.
  assert (U : utils.chinese_font zh uo
              = if negb (existsb (str_eqb (utils.text_font uo)) zh)
                then utils.set_text_font uo (hd [] zh) else uo).
  { unfold utils.chinese_font, chinese_text in *.
    destruct (utils.text uo) as [t |]; [| discriminate Huo].
    replace (utils.is_chinese t) with true
      by (symmetry; transitivity (draw.is_chinese t);
          [apply is_chinese_same | exact Huo]).
    destruct zh as [| first zh']; [contradiction |]. cbv zeta.
    destruct (negb (existsb (str_eqb (utils.text_font uo)) _));
      [reflexivity |].
    destruct uo; reflexivity. }
  split; [| split; [| split]].
  - rewrite D. clear D U.
    destruct (negb (existsb (str_eqb (draw.text_font o)) zh)) eqn:En.
    + cbn. apply pick_zh_font_In; [exact Hzh | auto |]. right. exact Hzh.
    + apply negb_false_iff in En. apply existsb_str_eqb. exact En.
  - rewrite U. clear D U.
    destruct (negb (existsb (str_eqb (utils.text_font uo)) zh)) eqn:En.
    + cbn. destruct zh; [contradiction |]. left. reflexivity.
    + apply negb_false_iff in En. apply existsb_str_eqb. exact En.
  - intros Hin. rewrite D. apply existsb_str_eqb in Hin. rewrite Hin.
    reflexivity.
  - intros Hin. rewrite U. apply existsb_str_eqb in Hin. rewrite Hin.
    reflexivity.
Qed.

Lemma chinese_font_is_installed_witness :
  In (draw.text_font
        (draw.chinese_font example.platform_system example.get_all_zh_font
           (draw.mkDrawingOptions (Some [0x4e2d; 0x6587]%N) None
              example.helvetica 12 example.black (1 / 2) 45 1)))
     example.get_all_zh_font /\
  In (utils.text_font
        (utils.chinese_font example.get_all_zh_font
           (utils.mkDrawingOptions (Some [0x4e2d; 0x6587]%N) None
              example.helvetica 12 example.black (1 / 2) 45 1 3 2 false)))
     example.get_all_zh_font.
Proof.
  destruct (chinese_font_is_installed example.platform_system
              example.get_all_zh_font
              (draw.mkDrawingOptions (Some [0x4e2d; 0x6587]%N) None
                 example.helvetica 12 example.black (1 / 2) 45 1)
              (utils.mkDrawingOptions (Some [0x4e2d; 0x6587]%N) None
                 example.helvetica 12 example.black (1 / 2) 45 1 3 2 false))
    as (H1 & H2 & _).
  - discriminate.
  - discriminate.
  - reflexivity.
  - reflexivity.
  - split; [exact H1 | exact H2].
Defined.

(** X24: the font step changes the drawing options it is given, and
    rendering with options it has changed already gives the same result:
    the step, applied twice, changes nothing more, and [draw_watermarks]
    and [create_watermark_pdf] return the same canvas or raise the same
    exception on the changed options as on the original ones. *)
Theorem rendering_again_with_changed_options
  (Alignments_value : draw.Alignments -> str)
  (stringWidth : str -> str -> R -> R)
  (fit_image : R -> R -> R -> R -> R -> result (R * R))
  (plat : str) (zh : list str) (name : str) (width height : R)
  (o : draw.DrawingOptions) (so : draw.SpecificOptions)
  (uo : utils.DrawingOptions) :
  draw.chinese_font plat zh (draw.chinese_font plat zh o)
  = draw.chinese_font plat zh o /\
  utils.chinese_font zh (utils.chinese_font zh uo)
  = utils.chinese_font zh uo /\
  draw.draw_watermarks Alignments_value stringWidth fit_image plat zh
    name width height (draw.chinese_font plat zh o) so
  = draw.draw_watermarks Alignments_value stringWidth fit_image plat zh
      name width height o so /\
  utils.create_watermark_pdf zh name width height (utils.chinese_font zh uo)
  = utils.create_watermark_pdf zh name width height uo.
Proof.
  split; [apply draw_chinese_font_idempotent |].
  split; [apply utils_chinese_font_idempotent |].
  split.
  - unfold draw.draw_watermarks. cbv zeta.
    rewrite draw_chinese_font_idempotent.
    destruct (draw_chinese_font_fields plat zh o)
      as (_ & _ & _ & _ & _ & Ea & _).
    rewrite Ea. reflexivity.
  - unfold utils.create_watermark_pdf. cbv zeta.
    rewrite utils_chinese_font_idempotent.
    destruct (utils_chinese_font_fields zh uo)
      as (_ & _ & _ & _ & Eh & Ev & Ea).
    rewrite Eh, Ev, Ea. reflexivity.
Qed.

(** X25: on Windows the list of Chinese fonts is the list of the single
    characters of the name "Microsoft YaHei": for a Chinese text whose font
    is not one of these characters, the font becomes "M". *)
Theorem chinese_font_on_windows (zh : list str) (o : draw.DrawingOptions) :
  chinese_text (draw.text o) = true ->
  ~ In (draw.text_font o)
      (map (fun ch => [ch]) (str_of_string "Microsoft YaHei")) ->
  draw.chinese_font (str_of_string "Windows") zh o
  = draw.set_text_font o (str_of_string "M").
Proof.
  intros Ht Hfont.
  pose proof (draw_chinese_font_cases (str_of_string "Windows") zh o) as D.
  cbv zeta in D. rewrite str_eqb_refl in D. cbn [negb] in D.
  rewrite Ht in D.
  replace (existsb (str_eqb (draw.text_font o))
             (map (fun ch => [ch]) (str_of_string "Microsoft YaHei")))
    with false in D.
  - rewrite D. reflexivity.
  - symmetry. apply not_true_is_false. intros E.
    apply existsb_str_eqb in E. exact (Hfont E).
Qed.

Lemma chinese_font_on_windows_witness :
  draw.chinese_font (str_of_string "Windows") example.get_all_zh_font
    (draw.mkDrawingOptions (Some [0x4e2d; 0x6587]%N) None
       example.helvetica 12 example.black (1 / 2) 45 1)
  = draw.mkDrawingOptions (Some [0x4e2d; 0x6587]%N) None
      (str_of_string "M") 12 example.black (1 / 2) 45 1.
Proof.
  apply (chinese_font_on_windows example.get_all_zh_font
           (draw.mkDrawingOptions (Some [0x4e2d; 0x6587]%N) None
              example.helvetica 12 example.black (1 / 2) 45 1)).
  - reflexivity.
  - cbn. intros H.
    repeat (destruct H as [H | H]; [discriminate H |]). exact H.
Defined.

Lemma pick_zh_font_no_match (zh rest : list str) (font : str) :
  rest <> [] ->
  (forall f, In f rest -> (draw.find f (str_of_string "Hei") <= 0)%Z) ->
  draw.pick_zh_font zh rest font = hd font zh.
Proof.
  revert font. induction rest as [| f rest IH]; intros font Hne Hall.
  - contradiction.
  - cbn. replace (draw.find f _ >? 0)%Z with false
      by (symmetry; rewrite Z.gtb_ltb; apply Z.ltb_ge, Hall; left; reflexivity).
    destruct rest as [| g rest'].
    + reflexivity.
    + rewrite IH.
      * destruct zh; reflexivity.
      * discriminate.
      * intros h Hh. apply Hall. right. exact Hh.
Qed.

Lemma pick_zh_font_first_match (zh before after : list str) (f font : str) :
  (forall g, In g before -> (draw.find g (str_of_string "Hei") <= 0)%Z) ->
  (0 < draw.find f (str_of_string "Hei"))%Z ->
  draw.pick_zh_font zh (before ++ f :: after) font = f.
Proof.
  revert font. induction before as [| g before IH]; intros font Hall Hf.
  - cbn. replace (draw.find f _ >? 0)%Z with true
      by (symmetry; rewrite Z.gtb_ltb; apply Z.ltb_lt; exact Hf).
    reflexivity.
  - cbn. replace (draw.find g _ >? 0)%Z with false
      by (symmetry; rewrite Z.gtb_ltb; apply Z.ltb_ge, Hall; left; reflexivity).
    apply IH; [| exact Hf]. intros h Hh. apply Hall. right. exact Hh.
Qed.

Lemma startswith_app (sub rest : str) : draw.startswith (sub ++ rest) sub = true.
Proof.
  induction sub as [| a sub IH]; cbn.
  - destruct rest; reflexivity.
  - rewrite N.eqb_refl. exact IH.
Qed.

(** X26: off Windows, a Chinese text whose font is not installed gets the
    first installed font in whose name "Hei" occurs at an index above
    zero, and the first installed font if there is none.  A name that
    begins with "Hei" has it at index zero and is not preferred. *)
Theorem chinese_font_prefers_hei (plat : str) (zh : list str)
  (o : draw.DrawingOptions) :
  plat <> str_of_string "Windows" ->
  chinese_text (draw.text o) = true ->
  ~ In (draw.text_font o) zh ->
  zh <> [] ->
  (forall before f after,
     zh = before ++ f :: after ->
     (forall g, In g before -> (draw.find g (str_of_string "Hei") <= 0)%Z) ->
     (0 < draw.find f (str_of_string "Hei"))%Z ->
     draw.chinese_font plat zh o = draw.set_text_font o f) /\
  ((forall g, In g zh -> (draw.find g (str_of_string "Hei") <= 0)%Z) ->
   draw.chinese_font plat zh o = draw.set_text_font o (hd [] zh)) /\
  (forall rest : str, draw.find (str_of_string "Hei" ++ rest)
                        (str_of_string "Hei") = 0%Z).
Proof.
  intros Hplat Ht Hfont Hzh.
  assert (Hw : negb (str_eqb (str_of_string "Windows") plat) = true).
  { apply negb_true_iff. apply str_eqb_neq. congruence. }
  pose proof (draw_chinese_font_cases plat zh o) as D. cbv zeta in D.
  rewrite Hw, Ht in D.
  replace (negb (match zh with [] => true | _ => false end)) with true in D
    by (destruct zh; [contradiction | reflexivity]).
  replace (existsb (str_eqb (draw.text_font o)) zh) with false in D
    by (symmetry; apply not_true_is_false; intros E;
        apply existsb_str_eqb in E; exact (Hfont E)).
  cbn [andb negb] in D.
  split; [| split].
  - intros before f after Ez Hall Hf. rewrite D. f_equal.
    rewrite Ez at 2. apply pick_zh_font_first_match; assumption.
  - intros Hall. rewrite D. f_equal.
    rewrite (pick_zh_font_no_match zh zh (draw.text_font o) Hzh Hall).
    destruct zh; [contradiction | reflexivity].
  - intros rest. unfold draw.find.
    pose proof (startswith_app (str_of_string "Hei") rest) as H.
    destruct (str_of_string "Hei" ++ rest);
      cbn [draw.find_from]; rewrite H; reflexivity.
Qed.

Lemma chinese_font_prefers_hei_witness :
  draw.chinese_font example.platform_system
    [str_of_string "Heiti TC"; str_of_string "Noto Sans CJK";
     str_of_string "SimHei"]
    (draw.mkDrawingOptions (Some [0x4e2d; 0x6587]%N) None
       example.helvetica 12 example.black (1 / 2) 45 1)
  = draw.mkDrawingOptions (Some [0x4e2d; 0x6587]%N) None
      (str_of_string "SimHei") 12 example.black (1 / 2) 45 1.
Proof.
  refine (proj1
    (chinese_font_prefers_hei example.platform_system
       [str_of_string "Heiti TC"; str_of_string "Noto Sans CJK";
        str_of_string "SimHei"]
       (draw.mkDrawingOptions (Some [0x4e2d; 0x6587]%N) None
          example.helvetica 12 example.black (1 / 2) 45 1) _ _ _ _)
    [str_of_string "Heiti TC"; str_of_string "Noto Sans CJK"]
    (str_of_string "SimHei") [] eq_refl _ _).
  - discriminate.
  - reflexivity.
  - cbn. intros H.
    repeat (destruct H as [H | H]; [discriminate H |]). exact H.
  - discriminate.
  - intros g [<- | [<- | []]]; vm_compute; discriminate.
  - vm_compute. reflexivity.
Defined.

(** ** Composition, continued *)

(** X27: [add_watermark_to_pdf] of [app/handler.py] in full: it raises
    [IndexError] on a document without pages, raises what rendering the
    watermark raises, raises [IndexError] when the rendered file has no
    page, and otherwise writes every input page with the first page of the
    rendered file merged onto it; the watermark is rendered once, at the
    size of the first input page. *)
Theorem add_watermark_to_pdf_outcome
  (Alignments_value : draw.Alignments -> str)
  (stringWidth : str -> str -> R -> R)
  (fit_image : R -> R -> R -> R -> R -> result (R * R))
  (plat : str) (zh : list str)
  (Page : Type) (mediaBox : Page -> R * R)
  (mergePage : Page -> Page -> Page)
  (PdfFileReader_pages : Canvas -> list Page) (temporary_file_name : str)
  (input : list Page) (o : draw.DrawingOptions)
  (so : draw.SpecificOptions) :
  handler.add_watermark_to_pdf Alignments_value stringWidth fit_image
    plat zh Page mediaBox mergePage PdfFileReader_pages temporary_file_name
    input o so
  = match input with
    | [] => Raise IndexError
    | first_page :: _ =>
        match draw.draw_watermarks Alignments_value stringWidth fit_image
                plat zh temporary_file_name (fst (mediaBox first_page))
                (snd (mediaBox first_page)) o so
        with
        | Raise e => Raise e
        | Ok temporary_file =>
            match PdfFileReader_pages temporary_file with
            | [] => Raise IndexError
            | watermark_page :: _ =>
                Ok (map (fun page => mergePage page watermark_page) input)
            end
        end
    end.
Proof.
  unfold handler.add_watermark_to_pdf. cbv zeta.
  destruct input as [| first_page rest]; [reflexivity |].
  change (getitem (first_page :: rest) 0) with (Ok first_page).
  unfold bind at 1.
  destruct (mediaBox first_page) as [page_width page_height]. cbn [fst snd].
  destruct (draw.draw_watermarks _ _ _ _ _ _ _ _ _ _)
    as [temporary_file | e]; [| reflexivity].
  unfold bind at 1.
  destruct (PdfFileReader_pages temporary_file)
    as [| watermark_page others] eqn:Er.
  - reflexivity.
  - rewrite (merge_loop mergePage _ watermark_page others
               (first_page :: rest) [] eq_refl).
    reflexivity.
Qed.

(** ** Several files *)

Lemma write_file_other {Page : Type} (fs : FileSystem Page)
  (path p : str) (pages : list Page) :
  p <> path -> write_file fs path pages p = fs p.
Proof.
  intros N. unfold write_file. rewrite str_eqb_neq by exact N. reflexivity.
Qed.

Lemma write_file_same {Page : Type} (fs : FileSystem Page) (path : str)
  (pages : list Page) :
  write_file fs path pages path = Some pages.
Proof. unfold write_file. rewrite str_eqb_refl. reflexivity. Qed.

Section Batch.

Variable Alignments_value : draw.Alignments -> str.
Variable stringWidth : str -> str -> R -> R.
Variable fit_image : R -> R -> R -> R -> R -> result (R * R).
Variable platform_system : str.
Variable get_all_zh_font : list str.
Variable Page : Type.
Variable mediaBox : Page -> R * R.
Variable mergePage : Page -> Page -> Page.
Variable PdfFileReader_pages : Canvas -> list Page.
Variable temporary_file_name : str.

Local Abbreviation render :=
  (handler.add_watermark_to_pdf Alignments_value stringWidth fit_image
     platform_system get_all_zh_font Page mediaBox mergePage
     PdfFileReader_pages temporary_file_name).

Local Abbreviation run :=
  (handler.add_watermark_from_options Alignments_value stringWidth fit_image
     platform_system get_all_zh_font Page mediaBox mergePage
     PdfFileReader_pages temporary_file_name).

Local Abbreviation utils_run :=
  (utils.add_watermark_from_files get_all_zh_font Page mediaBox mergePage
     PdfFileReader_pages temporary_file_name).

Lemma render_changed_options (input : list Page) (o : draw.DrawingOptions)
  (so : draw.SpecificOptions) :
  render input (draw.chinese_font platform_system get_all_zh_font o) so
  = render input o so.
Proof.
  unfold handler.add_watermark_to_pdf. cbv zeta.
  destruct (getitem input 0) as [first_page | e]; [| reflexivity].
  cbv beta iota delta [bind].
  destruct (mediaBox first_page) as [page_width page_height].
  unfold draw.draw_watermarks. cbv zeta.
  rewrite draw_chinese_font_idempotent.
  destruct (draw_chinese_font_fields platform_system get_all_zh_font o)
    as (_ & _ & _ & _ & _ & Ea & _).
  rewrite Ea. reflexivity.
Qed.

Lemma utils_render_changed_options (input : list Page)
  (uo : utils.DrawingOptions) :
  utils.add_watermark_to_pdf get_all_zh_font Page mediaBox mergePage
    PdfFileReader_pages temporary_file_name input
    (utils.chinese_font get_all_zh_font uo)
  = utils.add_watermark_to_pdf get_all_zh_font Page mediaBox mergePage
      PdfFileReader_pages temporary_file_name input uo.
Proof.
  unfold utils.add_watermark_to_pdf. cbv zeta.
  destruct (getitem input 0) as [first_page | e]; [| reflexivity].
  cbv beta iota delta [bind].
  destruct (mediaBox first_page) as [page_width page_height].
  unfold utils.create_watermark_pdf. cbv zeta.
  rewrite utils_chinese_font_idempotent.
  destruct (utils_chinese_font_fields get_all_zh_font uo)
    as (_ & _ & _ & _ & Eh & Ev & Ea).
  rewrite Eh, Ev, Ea. reflexivity.
Qed.

Lemma run_changed_options (files : list (str * str))
  (o : draw.DrawingOptions) (so : draw.SpecificOptions)
  (fs : FileSystem Page) :
  run files (draw.chinese_font platform_system get_all_zh_font o) so fs
  = run files o so fs.
Proof.
  destruct files as [| [input_file output_file] files]; [reflexivity |].
  cbn [handler.add_watermark_from_options].
  destruct (fs input_file) as [input |]; [| reflexivity].
  rewrite render_changed_options.
  rewrite draw_chinese_font_idempotent. reflexivity.
Qed.

Lemma utils_run_changed_options (files : list (str * str))
  (uo : utils.DrawingOptions) (fs : FileSystem Page) :
  utils_run files (utils.chinese_font get_all_zh_font uo) fs
  = utils_run files uo fs.
Proof.
  destruct files as [| [input_file output_file] files]; [reflexivity |].
  cbn [utils.add_watermark_from_files].
  destruct (fs input_file) as [input |]; [| reflexivity].
  rewrite utils_render_changed_options.
  rewrite utils_chinese_font_idempotent. reflexivity.
Qed.

Lemma run_frame (files : list (str * str)) (o : draw.DrawingOptions)
  (so : draw.SpecificOptions) (fs : FileSystem Page) (p : str) :
  ~ In p (output_files files) -> fst (run files o so fs) p = fs p.
Proof.
  revert o fs.
  induction files as [| [input_file output_file] files IH]; intros o fs Hp.
  - reflexivity.
  - cbn [handler.add_watermark_from_options].
    destruct (fs input_file) as [input |]; [| reflexivity].
    destruct (render input o so) as [output | e]; [| reflexivity].
    cbv zeta. rewrite IH.
    + apply write_file_other. intros ->. apply Hp. left. reflexivity.
    + intros H. apply Hp. right. exact H.
Qed.

Lemma utils_run_frame (files : list (str * str)) (uo : utils.DrawingOptions)
  (fs : FileSystem Page) (p : str) :
  ~ In p (output_files files) -> fst (utils_run files uo fs) p = fs p.
Proof.
  revert uo fs.
  induction files as [| [input_file output_file] files IH]; intros uo fs Hp.
  - reflexivity.
  - cbn [utils.add_watermark_from_files].
    destruct (fs input_file) as [input |]; [| reflexivity].
    destruct (utils.add_watermark_to_pdf _ _ _ _ _ _ input uo)
      as [output | e]; [| reflexivity].
    cbv zeta. rewrite IH.
    + apply write_file_other. intros ->. apply Hp. left. reflexivity.
    + intros H. apply Hp. right. exact H.
Qed.

Lemma run_app (xs ys : list (str * str)) (o : draw.DrawingOptions)
  (so : draw.SpecificOptions) (fs : FileSystem Page) :
  run (xs ++ ys) o so fs
  = match run xs o so fs with
    | (fs', None) => run ys o so fs'
    | failed => failed
    end.
Proof.
  revert o fs.
  induction xs as [| [input_file output_file] xs IH]; intros o fs.
  - reflexivity.
  - cbn [app handler.add_watermark_from_options].
    destruct (fs input_file) as [input |]; [| reflexivity].
    destruct (render input o so) as [output | e]; [| reflexivity].
    cbv zeta. rewrite IH.
    destruct (run xs _ so _) as [fs' [e |]]; [reflexivity |].
    apply run_changed_options.
Qed.

Lemma utils_run_app (xs ys : list (str * str)) (uo : utils.DrawingOptions)
  (fs : FileSystem Page) :
  utils_run (xs ++ ys) uo fs
  = match utils_run xs uo fs with
    | (fs', None) => utils_run ys uo fs'
    | failed => failed
    end.
Proof.
  revert uo fs.
  induction xs as [| [input_file output_file] xs IH]; intros uo fs.
  - reflexivity.
  - cbn [app utils.add_watermark_from_files].
    destruct (fs input_file) as [input |]; [| reflexivity].
    destruct (utils.add_watermark_to_pdf _ _ _ _ _ _ input uo)
      as [output | e]; [| reflexivity].
    cbv zeta. rewrite IH.
    destruct (utils_run xs _ _) as [fs' [e |]]; [reflexivity |].
    apply utils_run_changed_options.
Qed.

Lemma run_outputs (files : list (str * str)) (o : draw.DrawingOptions)
  (so : draw.SpecificOptions) (fs fs' : FileSystem Page) :
  NoDup (output_files files) ->
  (forall input_file output_file,
     In (input_file, output_file) files ->
     ~ In input_file (output_files files)) ->
  run files o so fs = (fs', None) ->
  forall input_file output_file,
    In (input_file, output_file) files ->
    exists input output,
      fs input_file = Some input /\
      render input o so = Ok output /\
      fs' output_file = Some output.
Proof.
  revert o fs.
  induction files as [| [input0 output0] files IH];
    intros o fs Hnd Hdisj Hrun input_file output_file Hin.
  - destruct Hin.
  - cbn [handler.add_watermark_from_options] in Hrun.
    destruct (fs input0) as [pages0 |] eqn:E0; [| discriminate Hrun].
    destruct (render pages0 o so) as [written0 | e] eqn:R0;
      [| discriminate Hrun].
    cbv zeta in Hrun.
    inversion Hnd as [| ? ? Hnot Hnd']; subst.
    destruct Hin as [Hin | Hin].
    + injection Hin as <- <-. exists pages0, written0.
      split; [exact E0 |]. split; [exact R0 |].
      pose proof (run_frame files
                    (draw.chinese_font platform_system get_all_zh_font o)
                    so (write_file fs output0 written0) output0 Hnot) as F.
      rewrite Hrun in F. cbn [fst] in F. rewrite F.
      apply write_file_same.
    + destruct (IH _ _ Hnd'
                  (fun i out H (H' : In i (output_files files)) =>
                     Hdisj i out (or_intror H) (or_intror H'))
                  Hrun input_file output_file Hin)
        as (input & output & Ei & Er & Eo).
      exists input, output. split; [| split].
      * rewrite write_file_other in Ei; [exact Ei |].
        intros ->. apply (Hdisj output0 output_file).
        -- right. exact Hin.
        -- left. reflexivity.
      * rewrite <- Er. symmetry. apply render_changed_options.
      * exact Eo.
Qed.

End Batch.

(** X29: when the outputs of a run are pairwise distinct, no input is also
    an output, and the run ends normally, every output file holds what
    [add_watermark_to_pdf] writes for the pages of its input file with the
    drawing options as they were given: the font left in the options by
    one file changes nothing for the next. *)
Theorem run_writes_every_output
  (Alignments_value : draw.Alignments -> str)
  (stringWidth : str -> str -> R -> R)
  (fit_image : R -> R -> R -> R -> R -> result (R * R))
  (plat : str) (zh : list str)
  (Page : Type) (mediaBox : Page -> R * R)
  (mergePage : Page -> Page -> Page)
  (PdfFileReader_pages : Canvas -> list Page) (temporary_file_name : str)
  (files : list (str * str)) (o : draw.DrawingOptions)
  (so : draw.SpecificOptions) (fs fs' : FileSystem Page)
  (input_file output_file : str) :
  NoDup (map snd files) ->
  (forall i out, In (i, out) files -> ~ In i (map snd files)) ->
  handler.add_watermark_from_options Alignments_value stringWidth fit_image
    plat zh Page mediaBox mergePage PdfFileReader_pages temporary_file_name
    files o so fs = (fs', None) ->
  In (input_file, output_file) files ->
  exists input output : list Page,
    fs input_file = Some input /\
    handler.add_watermark_to_pdf Alignments_value stringWidth fit_image
      plat zh Page mediaBox mergePage PdfFileReader_pages
      temporary_file_name input o so = Ok output /\
    fs' output_file = Some output.
Proof.
  intros Hnd Hdisj Hrun Hin.
  exact (run_outputs Alignments_value stringWidth fit_image plat zh Page
           mediaBox mergePage PdfFileReader_pages temporary_file_name
           files o so fs fs' Hnd Hdisj Hrun input_file output_file Hin).
Qed.

Lemma run_writes_every_output_witness :
  exists input output : list example.Page,
    example.disk (str_of_string "in.pdf") = Some input /\
    handler.add_watermark_to_pdf example.Alignments_value
      example.stringWidth utils.fit_image example.platform_system
      example.get_all_zh_font example.Page example.mediaBox
      example.mergePage example.PdfFileReader_pages
      example.temporary_file_name input example.text_options
      example.insert_left = Ok output /\
    fst (handler.add_watermark_from_options example.Alignments_value
           example.stringWidth utils.fit_image example.platform_system
           example.get_all_zh_font example.Page example.mediaBox
           example.mergePage example.PdfFileReader_pages
           example.temporary_file_name example.one_file
           example.text_options example.insert_left example.disk)
      (str_of_string "out.pdf")
    = Some output.
Proof.
  apply (run_writes_every_output example.Alignments_value
           example.stringWidth utils.fit_image example.platform_system
           example.get_all_zh_font example.Page example.mediaBox
           example.mergePage example.PdfFileReader_pages
           example.temporary_file_name example.one_file
           example.text_options example.insert_left example.disk).
  - repeat constructor. intros [].
  - intros i out [E | []]. injection E as <- <-.
    cbn. intros [H | []]. discriminate H.
  - reflexivity.
  - left. reflexivity.
Defined.

(** X30: a run over a list of files followed by another is the run over
    the first list and then, if that ended normally, the run over the
    second on the files it left, with the same drawing options; if the
    first run ended by an exception the second list is not touched.  So a
    run stops at its first failure and keeps the files written until
    then. *)
Theorem run_in_two_parts
  (Alignments_value : draw.Alignments -> str)
  (stringWidth : str -> str -> R -> R)
  (fit_image : R -> R -> R -> R -> R -> result (R * R))
  (plat : str) (zh : list str)
  (Page : Type) (mediaBox : Page -> R * R)
  (mergePage : Page -> Page -> Page)
  (PdfFileReader_pages : Canvas -> list Page) (temporary_file_name : str)
  (xs ys : list (str * str)) (o : draw.DrawingOptions)
  (so : draw.SpecificOptions) (uo : utils.DrawingOptions)
  (fs : FileSystem Page) :
  handler.add_watermark_from_options Alignments_value stringWidth fit_image
    plat zh Page mediaBox mergePage PdfFileReader_pages temporary_file_name
    (xs ++ ys) o so fs
  = match
      handler.add_watermark_from_options Alignments_value stringWidth
        fit_image plat zh Page mediaBox mergePage PdfFileReader_pages
        temporary_file_name xs o so fs
    with
    | (fs', None) =>
        handler.add_watermark_from_options Alignments_value stringWidth
          fit_image plat zh Page mediaBox mergePage PdfFileReader_pages
          temporary_file_name ys o so fs'
    | failed => failed
    end /\
  utils.add_watermark_from_inputs zh Page mediaBox mergePage
    PdfFileReader_pages temporary_file_name
    (utils.mkUserInputs (xs ++ ys) uo) fs
  = match
      utils.add_watermark_from_inputs zh Page mediaBox mergePage
        PdfFileReader_pages temporary_file_name
        (utils.mkUserInputs xs uo) fs
    with
    | (fs', None) =>
        utils.add_watermark_from_inputs zh Page mediaBox mergePage
          PdfFileReader_pages temporary_file_name
          (utils.mkUserInputs ys uo) fs'
    | failed => failed
    end.
Proof.
  split.
  - apply run_app.
  - unfold utils.add_watermark_from_inputs.
    cbn [utils.files_options utils.drawing_options].
    apply utils_run_app.
Qed.

(** ** Inserts: the top edge *)

(** X4: the box of an inserted image does not keep it below the top edge:
    above the middle of the page ([y] beyond one half), an image at scale 1
    that is at least as tall as its box, and narrow enough for the height
    to decide the fitting, is drawn as a rectangle that, before rotation,
    reaches above the page. *)
Theorem inserted_image_can_cross_top_edge
  (Alignments_value : draw.Alignments -> str)
  (stringWidth : str -> str -> R -> R)
  (w : Canvas) (o : draw.DrawingOptions) (so : draw.InsertOptions)
  (width height : R) (rot : ndarray22) (a : draw.Alignments)
  (img : ImageReader) :
  (forall a b, Alignments_value a = Alignments_value b -> a = b) ->
  draw.horizontal_alignment so = Alignments_value a ->
  draw.text o = None ->
  draw.image o = Some img ->
  (0 < fst (getSize img))%Z -> (0 < snd (getSize img))%Z ->
  0 < width -> 0 < height ->
  0 < draw.x so < 1 -> 1 / 2 < draw.y so < 1 ->
  draw.image_scale o = 1 ->
  insert_max_height (draw.y so) height <= IZR (snd (getSize img)) ->
  IZR (fst (getSize img)) * insert_max_height (draw.y so) height
  <= IZR (snd (getSize img)) * insert_max_width a (draw.x so) width ->
  exists centre_x centre_y image_width image_height : R,
    draw.draw_insert_watermark Alignments_value stringWidth utils.fit_image
      w o so width height rot
    = Ok (draw.draw_one_watermark w centre_x centre_y rot o
            image_width image_height) /\
    height < centre_y + image_height / 2.
Proof.
  intros Hinj Ha Et Ei Hpw Hph Hw Hh Hx Hy Hs Htall Hnarrow.
  apply IZR_lt in Hpw, Hph.
  set (pw := IZR (fst (getSize img))) in *.
  set (ph := IZR (snd (getSize img))) in *.
  set (mw := insert_max_width a (draw.x so) width) in *.
  set (mh := insert_max_height (draw.y so) height) in *.
  assert (Hmw : 0 < mw).
  { unfold mw. destruct a; cbn; [nra | nra | apply Rmin_pos; nra]. }
  assert (Hmh : 0 < mh).
  { unfold mh, insert_max_height. apply Rmin_pos; nra. }
  assert (Hmh2 : 2 * (1 - draw.y so) * height < mh).
  { unfold mh, insert_max_height, Rmin. destruct (Rle_dec _ _); nra. }
  pose proof (fit_box_min_factor pw ph mw mh Hpw Hph Hmw Hmh) as Hbox.
  cbv zeta in Hbox.
  assert (Hk : Rmin 1 (Rmin (mw / pw) (mh / ph)) = mh / ph).
  { set (u := mw / pw). set (v := mh / ph).
    assert (Hu : u * pw = mw) by (unfold u; field; lra).
    assert (Hv : v * ph = mh) by (unfold v; field; lra).
    assert (Hv0 : 0 < v) by (unfold v; apply Rdiv_lt_0_compat; lra).
    assert (Hv1 : v <= 1) by nra.
    assert (Hvu : v <= u).
    { apply Rnot_lt_le. intros C.
      assert (Hp : 0 < pw * ph) by nra.
      assert (Hlt : pw * ph * u < pw * ph * v)
        by (apply Rmult_lt_compat_l; assumption).
      replace (pw * ph * u) with (ph * mw) in Hlt by (rewrite <- Hu; ring).
      replace (pw * ph * v) with (pw * mh) in Hlt by (rewrite <- Hv; ring).
      lra. }
    unfold Rmin. repeat destruct (Rle_dec _ _); lra. }
  rewrite Hk in Hbox.
  rewrite (draw_insert_watermark_aligned Alignments_value stringWidth
             utils.fit_image Hinj w o so width height rot a Ha).
  rewrite Et, Ei. fold pw ph mw mh. unfold utils.fit_image at 1.
  rewrite Hbox, Hs. cbv beta iota zeta delta [bind].
  do 4 eexists. split; [reflexivity |].
  replace (mh / ph * ph * 1) with mh by (field; lra). nra.
Qed.

Lemma inserted_image_can_cross_top_edge_witness :
  exists centre_x centre_y image_width image_height : R,
    draw.draw_insert_watermark example.Alignments_value example.stringWidth
      utils.fit_image (new_Canvas [] 595 842)
      (draw.mkDrawingOptions None (Some (mkImage 2 (10, 4000)%Z))
         example.helvetica 12 example.black (1 / 2) 0 1)
      (draw.mkInsertOptions (1 / 2) (3 / 4) (str_of_string "center"))
      595 842 example.identity_matrix
    = Ok (draw.draw_one_watermark (new_Canvas [] 595 842) centre_x centre_y
            example.identity_matrix
            (draw.mkDrawingOptions None (Some (mkImage 2 (10, 4000)%Z))
               example.helvetica 12 example.black (1 / 2) 0 1)
            image_width image_height) /\
    842 < centre_y + image_height / 2.
Proof.
  apply (inserted_image_can_cross_top_edge example.Alignments_value
           example.stringWidth (new_Canvas [] 595 842)
           (draw.mkDrawingOptions None (Some (mkImage 2 (10, 4000)%Z))
              example.helvetica 12 example.black (1 / 2) 0 1)
           (draw.mkInsertOptions (1 / 2) (3 / 4) (str_of_string "center"))
           595 842 example.identity_matrix draw.CENTER
           (mkImage 2 (10, 4000)%Z) Alignments_value_inj);
    cbn; try reflexivity; try lia; try lra.
  - unfold insert_max_height, Rmin. destruct (Rle_dec _ _); lra.
  - unfold insert_max_height, Rmin. repeat destruct (Rle_dec _ _); lra.
Defined.
